(** * Application lifecycle on a remote device: a shallow embedding

    This development embeds [androidtestorchestrator/application.py] and
    [androidtestorchestrator/timing.py] and states the properties their
    specification asks for.

    - Python strings are [string]s of 8-bit characters; the helpers below give
      [str.strip], [str.lower], [in] on strings and the first element of
      [str.splitlines] on that alphabet (code points above 127 are plain
      characters: neither white space nor cased).
    - Python sets of strings are [gset string]; iteration is over [elements].
    - The device boundary ([device.py], which the methods only call) is an
      interface [DeviceBoundary]: every operation is a transition on an
      abstract device state that either returns or raises.
    - Methods are computations in a state-and-exception monad; the state
      carries the device, the trace of commands sent and, for instance
      methods, the object itself. *)

From Stdlib Require Import QArith Ascii String.
From Equations Require Import Equations.
From Equations.Prop Require Import Logic.
From stdpp Require Import gmap strings list.

Local Open Scope string_scope.

(** ** Python strings *)

Module PyStr.

(** [str.isspace] on one character. *)
Definition isspace (c : ascii) : bool :=
  let n := Ascii.nat_of_ascii c in
  ((9 <=? n)%nat && (n <=? 13)%nat) || ((28 <=? n)%nat && (n <=? 32)%nat).

Fixpoint lstrip (s : string) : string :=
  match s with
  | String c t => if isspace c then lstrip t else s
  | EmptyString => EmptyString
  end.

(** The characters of [s] up to its last non-space one. *)
Fixpoint rstrip (s : string) : string :=
  match s with
  | String c t =>
      match rstrip t with
      | EmptyString => if isspace c then EmptyString else String c EmptyString
      | t' => String c t'
      end
  | EmptyString => EmptyString
  end.

(** [s.strip()] *)
Definition strip (s : string) : string := rstrip (lstrip s).

Definition lower_char (c : ascii) : ascii :=
  let n := Ascii.nat_of_ascii c in
  if (65 <=? n)%nat && (n <=? 90)%nat then Ascii.ascii_of_nat (n + 32) else c.

(** [s.lower()] *)
Fixpoint lower (s : string) : string :=
  match s with
  | String c t => String (lower_char c) (lower t)
  | EmptyString => EmptyString
  end.

(** [needle in hay] on strings: [needle] occurs as a substring. *)
Fixpoint contains (needle hay : string) : bool :=
  String.prefix needle hay ||
  match hay with
  | String _ t => contains needle t
  | EmptyString => false
  end.

(** A line boundary of [str.splitlines]. *)
Definition is_linebreak (c : ascii) : bool :=
  let n := Ascii.nat_of_ascii c in
  ((10 <=? n)%nat && (n <=? 13)%nat) || ((28 <=? n)%nat && (n <=? 30)%nat).

Fixpoint first_line (s : string) : string :=
  match s with
  | String c t => if is_linebreak c then EmptyString else String c (first_line t)
  | EmptyString => EmptyString
  end.

(** [s.splitlines()[0]] when [s.splitlines()] is not empty. *)
Definition splitlines_head (s : string) : option string :=
  match s with
  | EmptyString => None
  | _ => Some (first_line s)
  end.

(** [s.startswith(p)] *)
Definition startswith (p s : string) : bool := String.prefix p s.

End PyStr.

(** ** Exceptions and the monad *)

Inductive exn : Type :=
| CommandExecutionFailure (msg : string)
| InsufficientStorageError
| TimeoutExpired            (* subprocess.TimeoutExpired *)
| AsyncTimeoutError         (* asyncio.TimeoutError *)
| IOError (msg : string)
| ValueError (msg : string)
| IndexError
| InvalidStateError         (* asyncio.InvalidStateError *)
| PyException (msg : string). (* a plain [Exception(msg)] *)

Inductive result (A : Type) : Type :=
| Ok (a : A)
| Raise (e : exn).
Arguments Ok {A} a.
Arguments Raise {A} e.

Definition is_ok {A} (r : result A) : bool :=
  match r with Ok _ => true | Raise _ => false end.

Definition raises {A} (r : result A) : Prop :=
  match r with Ok _ => False | Raise _ => True end.

(** A computation over a state [S]: the state survives an exception. *)
Definition M (S A : Type) : Type := S → result A * S.

Definition ret {S A} (a : A) : M S A := λ s, (Ok a, s).
Definition raise {S A} (e : exn) : M S A := λ s, (Raise e, s).
Definition bind {S A B} (m : M S A) (k : A → M S B) : M S B :=
  λ s, match m s with
       | (Ok a, s') => k a s'
       | (Raise e, s') => (Raise e, s')
       end.
(** [try: m except Exception as e: h e] *)
Definition try_except {S A} (m : M S A) (h : exn → M S A) : M S A :=
  λ s, match m s with
       | (Ok a, s') => (Ok a, s')
       | (Raise e, s') => h e s'
       end.
Definition get {S} : M S S := λ s, (Ok s, s).
Definition modify {S} (f : S → S) : M S unit := λ s, (Ok tt, f s).

(** The monad is used through stdpp's [x ← m; k] and [m;; k]. *)
#[global] Instance M_ret {S} : MRet (M S) := λ A a, ret a.
#[global] Instance M_bind {S} : MBind (M S) := λ A B k m, bind m k.

(** Run a computation on a component of the state. *)
Definition zoom {S T A} (proj : S → T) (upd : T → S → S) (m : M T A) : M S A :=
  λ s, let '(r, t) := m (proj s) in (r, upd t s).

(** [try: m finally: cleanup] *)
Definition try_finally {S A} (m : M S A) (cleanup : M S unit) : M S A :=
  λ s, match m s with
       | (r, s') =>
           match cleanup s' with
           | (Ok _, s'') => (r, s'')
           | (Raise e, s'') => (Raise e, s'')
           end
       end.

Definition lift_result {S A} (r : result A) : M S A := λ s, (r, s).

(** [for x in l: body x] *)
Fixpoint for_each {S A} (l : list A) (body : A → M S unit) : M S unit :=
  match l with
  | [] => ret tt
  | x :: l' => body x;; for_each l' body
  end.

(** ** The device boundary

    [device.py] is not part of the sources at hand: its methods, the methods
    of [DeviceInteraction] and the class constants the application code reads
    are the fields of this interface. An operation takes the device state and
    gives back what the call returns or raises, and the next device state. *)

Class DeviceBoundary (D : Type) : Type := {
  (** [device.execute_remote_cmd( *args, ...)]: the captured standard output *)
  execute_remote_cmd : list string → D → result string * D;
  (** entering [device.monitor_remote_cmd( *args)]: the process is started *)
  monitor_remote_cmd : list string → D → result unit * D;
  (** [await proc.wait(timeout=...)], then [proc.returncode] *)
  proc_wait : D → result Z * D;
  (** [await proc.communicate()] *)
  communicate : D → result string * D;
  list_installed_packages : D → result (list string) * D;
  (** [device.get_activity_stack()]; [None] when the device reports nothing *)
  get_activity_stack : D → result (option (list string)) * D;
  get_version : string → D → result (option string) * D;
  (** [DeviceInteraction(device).input(key)] *)
  input : string → D → result unit * D;
  home_screen_active : D → result bool * D;
  go_home : D → result unit * D;
  (** [Device.DANGEROUS_PERMISSIONS] *)
  DANGEROUS_PERMISSIONS : gset string;
  (** [Device.SLEEP_PKG_INSTALL], in seconds *)
  SLEEP_PKG_INSTALL : Q;
}.

(** What the application code sends to the device, in order. *)
Inductive event : Type :=
| Exec (args : list string)      (* device.execute_remote_cmd( *args) *)
| Monitor (args : list string)   (* device.monitor_remote_cmd( *args) *)
| Sleep (seconds : Q).           (* time.sleep(seconds) *)

Record world (D : Type) : Type := World { dev : D; trace : list event }.
Arguments World {D} dev trace.
Arguments dev {D} w.
Arguments trace {D} w.

(** The manifest of an apk as [apk_bitminer] parses it. *)
Module AXML.
Record instrumentation_t : Type :=
  { target_package : string; runner : string }.
Record t : Type :=
  { package_name : string;
    permissions : list string;
    instrumentation : option instrumentation_t }.
End AXML.

(** The manifest argument of [Application.__init__]: the parsed manifest or a
    dictionary with the keys [package_name] and [permissions]. *)
Record manifest_dict : Type :=
  { dict_package_name : option string; dict_permissions : option (list string) }.

Inductive manifest : Type :=
| Parsed (parser : AXML.t)
| Dict (d : manifest_dict).

Record Application : Type := MkApplication {
  _package_name : string;
  _permissions : gset string;
  _granted_permissions : gset string;
  _version : option string;
}.

(** The state an instance method runs in: the object and the device. *)
Record obj (D : Type) : Type := Obj { self : Application; env : world D }.
Arguments Obj {D} self env.
Arguments self {D} o.
Arguments env {D} o.

Definition set_granted (g : gset string) (a : Application) : Application :=
  {| _package_name := _package_name a; _permissions := _permissions a;
     _granted_permissions := g; _version := _version a |}.

Definition set_version (v : option string) (a : Application) : Application :=
  {| _package_name := _package_name a; _permissions := _permissions a;
     _granted_permissions := _granted_permissions a; _version := v |}.

(** *** [Application.__init__] *)
Definition Application_init (m : manifest) : result Application :=
  let package_name :=
    match m with
    | Parsed parser => AXML.package_name parser
    | Dict d => default "" (dict_package_name d)
    end in
  if bool_decide (package_name = "") then
    Raise (ValueError "manifest argument as dictionary must contain package_name as key")
  else
    Ok {| _package_name := package_name;
          _permissions :=
            list_to_set (match m with
                         | Parsed parser => AXML.permissions parser
                         | Dict d => default [] (dict_permissions d)
                         end);
          _granted_permissions := ∅;
          _version := None |}.

(** *** The loop of [Application.in_foreground] *)

Definition SILENT_RUNNING_PACKAGES : list string :=
  ["com.samsung.android.mtpapplication"; "com.wssyncmldm"; "com.bitbar.testdroid.monitor"].

(** [activity_stack[index].lower() in self.SILENT_RUNNING_PACKAGES] *)
Definition is_silent (entry : string) : bool :=
  bool_decide (PyStr.lower entry ∈ SILENT_RUNNING_PACKAGES).

(** [while activity_stack and (activity_stack[index].lower() in
    self.SILENT_RUNNING_PACKAGES): index += 1], from [index] on: the index the
    loop stops at, or the [IndexError] of [activity_stack[index]]. The loop
    can only go on below the length of the stack. *)
Equations? skip_silent (activity_stack : list string) (index : nat) : result nat
  by wf (length activity_stack - index) lt :=
  skip_silent [] index := Ok index;
  skip_silent stack index with inspect (stack !! index) := {
    | exist _ None _ => Raise IndexError
    | exist _ (Some entry) Hentry =>
        if is_silent entry then skip_silent stack (S index) else Ok index }.
Proof.
  apply lookup_lt_Some in Hentry. simpl in *. lia.
Qed.

(** *** The log stream of [Application.launch]

    What the coroutine meets each time it awaits the next line of
    [logcat_proc.output(unresponsive_timeout=timeout)]: a line, or the point
    where the supplied timeout runs out ([asyncio.wait_for] or the
    unresponsive timeout of the stream; both raise [asyncio.TimeoutError]).
    The end of the list is the end of the stream. A launch without timeout
    has no deadline and waits on. *)
Inductive tick : Type :=
| Line (line : string)
| Expire.

(** The first loop: lines are counted and dropped until the second one. The
    result is what is left of the stream. *)
Fixpoint subscribe (timeout : option Z) (count : nat) (stream : list tick)
  : result (list tick) :=
  match stream with
  | [] => Ok []
  | Expire :: rest =>
      if timeout is Some _ then Raise AsyncTimeoutError else subscribe timeout count rest
  | Line _ :: rest =>
      let count := S count in
      if bool_decide (count = 2) then Ok rest else subscribe timeout count rest
  end.

(** The second loop, after the start command. *)
Fixpoint scan (timeout : option Z) (package_name : string)
    (detected_fatal_exception : bool) (stream : list tick) : result unit :=
  match stream with
  | [] => Ok tt
  | Expire :: rest =>
      if timeout is Some _ then Raise AsyncTimeoutError
      else scan timeout package_name detected_fatal_exception rest
  | Line line :: rest =>
      let detected_fatal_exception :=
        if PyStr.contains "FATAL EXCEPTION" line then true else detected_fatal_exception in
      if detected_fatal_exception && PyStr.contains "Process" line
         && PyStr.contains package_name line then
        Raise (PyException "App crashed on startup")
      else if PyStr.contains "Displayed" line && PyStr.contains package_name line then
        Ok tt
      else scan timeout package_name detected_fatal_exception rest
  end.

(** What a line of the log says about a package. *)
Definition fatal (line : string) : bool := PyStr.contains "FATAL EXCEPTION" line.
Definition process_of (package_name line : string) : bool :=
  PyStr.contains "Process" line && PyStr.contains package_name line.
Definition displays (package_name line : string) : bool :=
  PyStr.contains "Displayed" line && PyStr.contains package_name line.

Definition on_line (P : string → bool) (t : tick) : bool :=
  match t with
  | Line line => P line
  | Expire => false
  end.

Definition logcat_cmd : list string :=
  ["logcat"; "-s"; "ActivityManager:I"; "ActivityTaskManager:I"; "AndroidRuntime:E";
   "-T"; "1"].

(** *** [TestApplication] *)
Record TestApplication : Type := MkTestApplication {
  base : Application;
  _runner : string;
  _target_application : Application;
}.

Definition dquote : string := String (Ascii.ascii_of_nat 34) EmptyString.

(** An option is quoted unless it starts with a quote or a dash. *)
Definition quote_option (arg : string) : string :=
  if negb (PyStr.startswith dquote arg) && negb (PyStr.startswith "-" arg)
  then dquote +:+ arg +:+ dquote else arg.

(** [sep.join(l)] *)
Fixpoint join (sep : string) (l : list string) : string :=
  match l with
  | [] => ""
  | [x] => x
  | x :: l' => x +:+ sep +:+ join sep l'
  end.

Definition invalid_test_manifest : exn :=
  PyException ("Test application's manifest does not specify proper "
                 +:+ "instrumentation element.Are you sure this is a test app").

Definition TestApplication_init (manifest : AXML.t) : result TestApplication :=
  match Application_init (Parsed manifest) with
  | Raise e => Raise e
  | Ok app =>
      match AXML.instrumentation manifest with
      | Some i =>
          if bool_decide (AXML.target_package i ≠ "") && bool_decide (AXML.runner i ≠ "") then
            match Application_init
                    (Dict {| dict_package_name := Some (AXML.target_package i);
                             dict_permissions := None |}) with
            | Raise e => Raise e
            | Ok target =>
                Ok {| base := app; _runner := AXML.runner i; _target_application := target |}
            end
          else Raise invalid_test_manifest
      | None => Raise invalid_test_manifest
      end
  end.

(** The exception of [Application.verify_install]. *)
Definition verification_failure (package : string) : exn :=
  PyException ("Failed to verify installation of app '" +:+ package
                 +:+ "', event though output indicated otherwise").

(** Both support packages of the test orchestrator are in a package list. *)
Definition support_packages_present (packages : list string) : Prop :=
  "android.support.test.services" ∈ packages
  ∧ "android.support.test.orchestrator" ∈ packages.

Section Device.
Context {D : Type} {boundary : DeviceBoundary D}.

(** A call into the device. *)
Definition call {A} (op : D → result A * D) : M (world D) A :=
  λ w, let '(r, d) := op (dev w) in (r, World d (trace w)).

Definition emit (e : event) : M (world D) unit :=
  modify (λ w, World (dev w) (trace w ++ [e])).

(** [device.execute_remote_cmd( *args)] *)
Definition exec (args : list string) : M (world D) string :=
  emit (Exec args);; call (execute_remote_cmd args).

(** [time.sleep(seconds)] *)
Definition sleep (seconds : Q) : M (world D) unit := emit (Sleep seconds).

(** A device computation run from an instance method. *)
Definition on_device {A} (m : M (world D) A) : M (obj D) A :=
  zoom env (λ w o, Obj (self o) w) m.

Definition this : M (obj D) Application := λ o, (Ok (self o), o).

Definition update_self (f : Application → Application) : M (obj D) unit :=
  modify (λ o, Obj (f (self o)) (env o)).

(** The property [granted_permissions]: a copy of the recorded set. *)
Definition granted_permissions (a : Application) : gset string :=
  _granted_permissions a.

(** *** [Application.grant_permissions] *)

(** [permissions or self.permissions]: [None] and an empty collection are
    both falsy. *)
Definition or_default (permissions : option (list string)) (declared : gset string)
  : list string :=
  match permissions with
  | None | Some [] => elements declared
  | Some l => l
  end.

(** [set(p.strip() for p in permissions if p in Device.DANGEROUS_PERMISSIONS)] *)
Definition permissions_filtered (permissions : list string) : gset string :=
  list_to_set (PyStr.strip <$> filter (λ p, p ∈ DANGEROUS_PERMISSIONS) permissions).

Definition grant_cmd (package_name p : string) : list string :=
  ["shell"; "pm"; "grant"; package_name; p].

(** One round of the loop: the grant command with its failure logged and
    dropped, then [self._granted_permissions.add(p)]. *)
Definition grant_one (p : string) : M (obj D) unit :=
  a ← this;
  try_except
    (on_device (exec (grant_cmd (_package_name a) p));; mret tt)
    (λ _, mret tt);;
  update_self (λ a, set_granted ({[p]} ∪ _granted_permissions a) a).

Definition grant_permissions (permissions : option (list string))
  : M (obj D) (gset string) :=
  a ← this;
  let permissions := or_default permissions (_permissions a) in
  let filtered := permissions_filtered permissions in
  if bool_decide (filtered = ∅) then mret ∅
  else
    for_each (elements filtered) grant_one;;
    a' ← this;
    mret (_granted_permissions a').

(** What one call of [grant_permissions] adds to [granted_permissions]. *)
Definition newly_granted (permissions : option (list string)) (a : Application)
  : gset string :=
  permissions_filtered (or_default permissions (_permissions a)).

(** *** [Application.regrant_permissions] *)
Definition regrant_permissions : M (obj D) (gset string) :=
  a ← this;
  grant_permissions (Some (elements (_granted_permissions a))).

(** *** [Application.clear_data] *)
Definition clear_cmd (package_name : string) : list string :=
  ["shell"; "pm"; "clear"; package_name].

Definition clear_data (regrant : bool) : M (obj D) unit :=
  a ← this;
  on_device (exec (clear_cmd (_package_name a)));;
  if regrant then regrant_permissions;; mret tt
  else update_self (set_granted ∅).

(** *** The property [pid] *)
Definition pid : M (obj D) (option string) :=
  a ← this;
  stdout ← on_device (exec ["shell"; "pidof"; "-s"; _package_name a]);
  mret (PyStr.strip <$> PyStr.splitlines_head stdout).

(** *** [Application.start] *)
Definition qualified (package_name activity : string) : string :=
  let activity :=
    if PyStr.contains "." activity then activity
    else package_name +:+ "." +:+ activity in
  package_name +:+ "/" +:+ activity.

Definition with_intent (intent : option string) (options : list string) : list string :=
  match intent with
  | None | Some "" => options
  | Some i => "-a" :: i :: options
  end.

Definition start (activity : string) (options : list string) (intent : option string)
  : M (obj D) unit :=
  a ← this;
  on_device (exec (["shell"; "am"; "start"; "-n"; qualified (_package_name a) activity]
                     ++ with_intent intent options)%list);;
  mret tt.

(** *** [Application.stop] *)
Definition stop (force : bool) : M (obj D) unit :=
  a ← this;
  try_except
    (if force then
       on_device (call go_home);;
       on_device (exec ["shell"; "am"; "force-stop"; _package_name a]);; mret tt
     else
       on_device (exec ["shell"; "am"; "stop"; _package_name a]);; mret tt)
    (λ _, mret tt).

(** *** [Application.clean_kill] *)

(** [while tries and not home_screen_active(): tries -= 1; time.sleep(0.5)] *)
Fixpoint poll_home (tries : nat) : M (world D) unit :=
  match tries with
  | 0 => mret tt
  | S tries' =>
      active ← call home_screen_active;
      if active : bool then mret tt
      else sleep (1 # 2);; poll_home tries'
  end.

(** Everything [clean_kill] does before it looks for the process. *)
Definition background_and_kill : M (obj D) unit :=
  a ← this;
  on_device (call (input "KEYCODE_HOME"));;
  on_device (poll_home 3);;
  on_device (exec ["shell"; "am"; "kill"; _package_name a]);;
  mret tt.

Definition clean_kill : M (obj D) unit :=
  background_and_kill;;
  p ← pid;
  match p with
  | Some _ =>
      active ← on_device (call home_screen_active);
      if active : bool then
        raise (PyException "Detected app process is still running. App closure failed.")
      else
        raise (PyException
                 "Failed to background current foreground app. Cannot complete app closure.")
  | None => mret tt
  end.

(** *** [Application.in_foreground] *)
Definition in_foreground (ignore_silent_apps : bool) : M (obj D) bool :=
  a ← this;
  stack ← on_device (call get_activity_stack);
  let activity_stack := default [] stack in
  index ← lift_result (if ignore_silent_apps then skip_silent activity_stack 0 else Ok 0);
  if bool_decide (length activity_stack < index) then mret false
  else
    match activity_stack !! index with
    | None => raise IndexError
    | Some foreground_activity =>
        mret (bool_decide (PyStr.lower foreground_activity = PyStr.lower (_package_name a)))
    end.

(** *** [Application.verify_install] *)
Definition verify_install (package : string) : M (world D) unit :=
  packages ← call list_installed_packages;
  packages ← (if bool_decide (package ∉ packages) then
                sleep SLEEP_PKG_INSTALL;; call list_installed_packages
              else mret packages);
  if bool_decide (package ∉ packages) then raise (verification_failure package)
  else mret tt.

(** *** [Application._install] *)
Definition _install (apk_path : string) (args : list string) : M (world D) unit :=
  exec (["install"] ++ args ++ [apk_path])%list;; mret tt.

(** *** [Application._monitor_install]

    The device lock only orders concurrent installs and has no counterpart
    here. [callback], when given, is run once the install process is
    started. *)
Definition _monitor_install (parse : string → result AXML.t)
    (apk_path : string) (args : list string) (callback : option (M (world D) unit))
  : M (world D) unit :=
  parser ← lift_result (parse apk_path);
  let package := AXML.package_name parser in
  let remote_data_path := "/data/local/tmp/" +:+ package in
  try_finally
    (try_except
       (exec ["push"; apk_path; remote_data_path];; mret tt)
       (λ e, match e with
             | CommandExecutionFailure msg =>
                 raise (IOError ("Unable to push apk to device " +:+ msg))
             | _ => raise e
             end);;
     let cmd := (["shell"; "pm"; "install"] ++ args ++ [remote_data_path])%list in
     emit (Monitor cmd);;
     call (monitor_remote_cmd cmd);;
     from_option id (mret tt) callback;;
     returncode ← call proc_wait;
     if bool_decide (returncode ≠ 0%Z) then
       out ← call communicate;
       raise (CommandExecutionFailure ("Install of " +:+ apk_path +:+ " failed: " +:+ out))
     else mret tt)
    (try_except (exec ["shell"; "rm"; remote_data_path];; mret tt) (λ _, mret tt)).

(** *** [Application.from_apk_async] and [Application.from_apk]

    [parse] is [AXMLParser.parse]: it reads the local apk file. *)
Definition from_apk_async (parse : string → result AXML.t)
    (apk_path : string) (as_upgrade : bool) (callback : option (M (world D) unit))
  : M (world D) Application :=
  parser ← lift_result (parse apk_path);
  let args := if as_upgrade then ["-r"] else [] in
  _monitor_install parse apk_path args callback;;
  lift_result (Application_init (Parsed parser)).

Definition from_apk (parse : string → result AXML.t)
    (apk_path : string) (as_upgrade : bool) : M (world D) Application :=
  parser ← lift_result (parse apk_path);
  let args := if as_upgrade then ["-r"] else [] in
  _install apk_path args;;
  lift_result (Application_init (Parsed parser)).

(** *** [Application.launch] on a given log stream *)
Definition open_logcat : M (obj D) unit :=
  on_device (emit (Monitor logcat_cmd);; call (monitor_remote_cmd logcat_cmd)).

Definition launch (activity : string) (options : list string) (intent : option string)
    (timeout : option Z) (stream : list tick) : M (obj D) unit :=
  a ← this;
  open_logcat;;
  rest ← lift_result (subscribe timeout 0 stream);
  start activity options intent;;
  lift_result (scan timeout (_package_name a) false rest).

(** *** [TestApplication.run] and [TestApplication.run_orchestrated]

    Both return the handle of [device.monitor_remote_cmd]: the command that
    the caller will run by entering it. *)
Definition run (t : TestApplication) (options : list string)
  : M (world D) (list string) :=
  packages ← call list_installed_packages;
  if bool_decide (_package_name (_target_application t) ∉ packages) then
    raise (PyException
             "App under test, as designatee by this test app's manifest, is not installed!")
  else
    let cmd := (["shell"; "am"; "instrument"; "-w"] ++ (quote_option <$> options)
                  ++ ["-r"; join "/" [_package_name (base t); _runner t]])%list in
    emit (Monitor cmd);; mret cmd.

Definition run_orchestrated (t : TestApplication) (options : list string)
  : M (world D) (list string) :=
  packages ← call list_installed_packages;
  if bool_decide (¬ ({["android.support.test.services"; "android.support.test.orchestrator"]}
                       ⊂ (list_to_set packages : gset string))) then
    raise (PyException ("Must install both test-services-<version>.apk and "
                          +:+ "orchestrator-<version>.apk to run "
                          +:+ "under Google's Android Test Orchestrator"))
  else
    packages' ← call list_installed_packages;
    if bool_decide (_package_name (_target_application t) ∉ packages') then
      raise (PyException
               "App under test, as designatee by this test app's manifest, is not installed!")
    else
      let options_text := join " " (quote_option <$> options) in
      let cmd :=
        ["shell";
         "CLASSPATH=$(pm path android.support.test.services) "
           +:+ "app_process / android.support.test.services.shellexecutor.ShellMain am instrument "
           +:+ "-r -w -e -v -targetInstrumentation "
           +:+ join "/" [_package_name (base t); _runner t] +:+ " " +:+ options_text +:+ " "
           +:+ "android.support.test.orchestrator/android.support.test.orchestrator.AndroidTestOrchestrator"] in
      emit (Monitor cmd);; mret cmd.

End Device.

(** ** The rest of [application.py] *)

(** [item.split(' ')[0]]: what comes before the first space. *)
Fixpoint first_word (s : string) : string :=
  match s with
  | String c t => if bool_decide (c = " "%char) then EmptyString else String c (first_word t)
  | EmptyString => EmptyString
  end.

(** [s.replace(old, '')] for a non-empty [old], left to right: [skip] counts
    the characters of an occurrence still to be dropped. *)
Fixpoint erase_go (old : string) (skip : nat) (s : string) : string :=
  match s with
  | EmptyString => EmptyString
  | String c t =>
      match skip with
      | S skip' => erase_go old skip' t
      | 0 =>
          if String.prefix old s then erase_go old (String.length old - 1) t
          else String c (erase_go old 0 t)
      end
  end.

Definition erase (old s : string) : string := erase_go old 0 s.

(** The runner named by a line of [pm list instrumentation]. *)
Definition runner_of (line : string) : string :=
  PyStr.strip (first_word (erase "instrumentation:" line)).

(** The quoting of [ServiceApplication]: every option, as it is. *)
Definition quote_item (item : string) : string := dquote +:+ item +:+ dquote.

Section DeviceMore.
Context {D : Type} {boundary : DeviceBoundary D}.

(** *** The property [version] *)
Definition version : M (obj D) (option string) :=
  a ← this;
  (if bool_decide (_version a = None) then
     v ← on_device (call (get_version (_package_name a)));
     update_self (set_version v)
   else mret tt);;
  a' ← this;
  mret (_version a').

(** *** [Application.uninstall] *)
Definition uninstall : M (obj D) unit :=
  stop true;;
  a ← this;
  try_except
    (on_device (exec ["uninstall"; _package_name a]);; mret tt)
    (λ e, match e with
          | TimeoutExpired => mret tt
          | _ =>
              (* the list is only looked at to decide on a log entry *)
              on_device (call list_installed_packages);; mret tt
          end).

(** *** [ServiceApplication.start] and [ServiceApplication.broadcast]

    [api_level] is [self.device.api_level]. *)
Definition ServiceApplication_start (api_level : Z) (activity : string)
    (options : list string) (intent : option string) (foreground : bool)
  : M (obj D) unit :=
  a ← this;
  if bool_decide (activity = "") then
    raise (PyException "Must provide an activity for ServiceApplication")
  else
    let activity := _package_name a +:+ "/" +:+ activity in
    let options := with_intent intent (quote_item <$> options) in
    (if foreground && bool_decide (26 ≤ api_level)%Z then
       on_device (exec (["shell"; "am"; "start-foreground-service"; "-n"; activity]
                          ++ options)%list)
     else
       on_device (exec (["shell"; "am"; "startservice"; "-n"; activity] ++ options)%list));;
    mret tt.

Definition broadcast (activity : string) (options : list string) (action : option string)
  : M (obj D) unit :=
  a ← this;
  if bool_decide (activity = "") then
    raise (PyException "Must provide an activity for ServiceApplication")
  else
    let activity := _package_name a +:+ "/" +:+ activity in
    let options := with_intent action (quote_item <$> options) in
    on_device (exec (["shell"; "am"; "broadcast"; "-n"; activity] ++ options)%list);;
    mret tt.

(** *** [TestApplication.list_runners]

    [list_instrumentation] is [self.device.list_instrumentation]. *)
Definition list_runners (list_instrumentation : D → result (list string) * D)
    (t : TestApplication) : M (world D) (list string) :=
  lines ← call list_instrumentation;
  mret (runner_of
          <$> filter (λ line, line ≠ "" ∧ PyStr.contains (_package_name (base t)) line = true)
                lines).

(** *** [TestApplication.from_apk_async] and [TestApplication.from_apk] *)
Definition TestApplication_from_apk_async (parse : string → result AXML.t)
    (apk_path : string) (as_upgrade : bool) (callback : option (M (world D) unit))
  : M (world D) TestApplication :=
  parser ← lift_result (parse apk_path);
  let args := if negb as_upgrade then ["-t"] else ["-r"; "-t"] in
  _monitor_install parse apk_path args callback;;
  lift_result (TestApplication_init parser).

Definition TestApplication_from_apk (parse : string → result AXML.t)
    (apk_path : string) (as_upgrade : bool) : M (world D) TestApplication :=
  parser ← lift_result (parse apk_path);
  let args := if negb as_upgrade then ["-t"] else ["-r"; "-t"] in
  _install apk_path args;;
  lift_result (TestApplication_init parser).

End DeviceMore.

(** ** The watchdog timer of [timing.py]

    The running event loop is the list of futures and tasks it has created;
    a timer refers to them by position. *)
Module Timing.

Inductive future : Type :=
| Pending
| Finished (value : bool)
| Cancelled.

Inductive task : Type :=
| Scheduled (name : string)          (* the coroutine [timer()] of [mark_start name] *)
| CancelRequested (name : string).

Record event_loop : Type :=
  { futures : list future; tasks : list task; stopped : bool }.

Record Timer : Type :=
  { _future : option nat; _timeout : Q; _task : option nat }.

Record st : Type := St { timer : Timer; loop : event_loop }.

(** [Timer.__init__] *)
Definition Timer_init (duration : Q) (l : event_loop) : st :=
  {| timer := {| _future := Some (length (futures l)); _timeout := duration;
                 _task := None |};
     loop := {| futures := futures l ++ [Pending]; tasks := tasks l;
                stopped := stopped l |} |}.

Definition cancel (t : task) : task :=
  match t with
  | Scheduled name | CancelRequested name => CancelRequested name
  end.

(** [Timer.mark_end] *)
Definition mark_end (name : string) : M st unit :=
  λ s,
    match _future (timer s), _task (timer s) with
    | Some f, Some t =>
        match futures (loop s) !! f with
        | Some Pending =>
            (Ok tt,
             {| timer := timer s;
                loop := {| futures := <[f := Finished true]> (futures (loop s));
                           tasks := alter cancel t (tasks (loop s));
                           stopped := stopped (loop s) |} |})
        | _ => (Raise InvalidStateError, s)
        end
    | _, _ => (Raise (PyException "Internal error: marking end without a start?!"), s)
    end.

(** [Timer.mark_start] *)
Definition mark_start (name : string) : M st unit :=
  λ s,
    (Ok tt,
     {| timer := {| _future := _future (timer s); _timeout := _timeout (timer s);
                    _task := Some (length (tasks (loop s))) |};
        loop := {| futures := futures (loop s);
                   tasks := tasks (loop s) ++ [Scheduled name];
                   stopped := stopped (loop s) |} |}).

(** The coroutine [timer()] running to its end: [timed_out] tells whether
    [asyncio.wait_for] expired, in which case the future it waited for is
    cancelled and the loop is stopped. *)
Definition timer_returns (timed_out : bool) (s : st) : st :=
  {| timer := {| _future := None; _timeout := _timeout (timer s);
                 _task := _task (timer s) |};
     loop :=
       if timed_out then
         {| futures := match _future (timer s) with
                       | Some f => <[f := Cancelled]> (futures (loop s))
                       | None => futures (loop s)
                       end;
            tasks := tasks (loop s); stopped := true |}
       else loop s |}.

(** The state after a run of [mark_end] calls, whatever they raise. *)
Definition after_mark_ends (names : list string) (s : st) : st :=
  foldl (λ s name, (mark_end name s).2) s names.

End Timing.

(** ** A scripted device

    A device whose answers are written down in advance: a list of answers is
    used up call by call and its last element stays. *)
Module Sim.

Record t : Type := {
  installed : list (list string);   (* answers of [list_installed_packages] *)
  home : list bool;                 (* answers of [home_screen_active] *)
  failing : list (list string);     (* commands that fail *)
  pidof : string;                   (* standard output of [pidof] *)
  stack : option (list string);     (* answer of [get_activity_stack] *)
  returncode : Z;                   (* of a monitored process *)
}.

Definition next {A} (dflt : A) (l : list A) : A * list A :=
  match l with
  | [] => (dflt, [])
  | [x] => (x, [x])
  | x :: l' => (x, l')
  end.

Definition run_cmd (args : list string) (d : t) : result string * t :=
  if bool_decide (args ∈ failing d) then (Raise (CommandExecutionFailure "failed"), d)
  else if bool_decide (args !! 1 = Some "pidof") then (Ok (pidof d), d)
  else (Ok "", d).

Definition packages (d : t) : result (list string) * t :=
  let '(a, l) := next [] (installed d) in
  (Ok a,
   {| installed := l; home := home d; failing := failing d; pidof := pidof d;
      stack := stack d; returncode := returncode d |}).

Definition at_home (d : t) : result bool * t :=
  let '(a, l) := next false (home d) in
  (Ok a,
   {| installed := installed d; home := l; failing := failing d; pidof := pidof d;
      stack := stack d; returncode := returncode d |}).

Definition boundary (dangerous : gset string) : DeviceBoundary t :=
  {| execute_remote_cmd := run_cmd;
     monitor_remote_cmd := λ _ d, (Ok tt, d);
     proc_wait := λ d, (Ok (returncode d), d);
     communicate := λ d, (Ok "", d);
     list_installed_packages := packages;
     get_activity_stack := λ d, (Ok (stack d), d);
     get_version := λ _ d, (Ok None, d);
     input := λ _ d, (Ok tt, d);
     home_screen_active := at_home;
     go_home := λ d, (Ok tt, d);
     DANGEROUS_PERMISSIONS := dangerous;
     SLEEP_PKG_INSTALL := 1 |}.

(** Some of the permissions Android calls dangerous. *)
Definition dangerous : gset string :=
  {["android.permission.CAMERA"; "android.permission.READ_CONTACTS";
    "android.permission.WRITE_EXTERNAL_STORAGE"]}.

(** A quiet device: nothing installed, nothing fails, no process. *)
Definition idle : t :=
  {| installed := []; home := []; failing := []; pidof := ""; stack := None;
     returncode := 0 |}.

(** The quiet device with a given activity stack. *)
Definition showing (activity_stack : option (list string)) : t :=
  {| installed := []; home := []; failing := []; pidof := ""; stack := activity_stack;
     returncode := 0 |}.

Definition fresh (d : t) : world t := World d [].

(** The quiet device, except that the given commands fail. *)
Definition refusing (commands : list (list string)) : t :=
  {| installed := []; home := []; failing := commands; pidof := ""; stack := None;
     returncode := 0 |}.

(** Lines of a log. *)
Definition banner_main : string := "--------- beginning of main".
Definition banner_system : string := "--------- beginning of system".
Definition fatal_line : string := "E AndroidRuntime: FATAL EXCEPTION: main".
Definition process_line : string := "E AndroidRuntime: Process: com.example.app, PID: 4242".
Definition displayed_line : string :=
  "I ActivityManager: Displayed com.example.app/.MainActivity: +350ms".
Definition start_line : string :=
  "I ActivityManager: Start proc 4242:com.example.other/u0a1 for activity".

(** An application as [Application.__init__] leaves it. *)
Definition app (package_name : string) (permissions : list string) : Application :=
  {| _package_name := package_name; _permissions := list_to_set permissions;
     _granted_permissions := ∅; _version := None |}.

End Sim.

(** The scripted device with an answer to [get_version]. *)
Definition versioned (v : option string) : DeviceBoundary Sim.t :=
  {| execute_remote_cmd := Sim.run_cmd;
     monitor_remote_cmd := λ _ d, (Ok tt, d);
     proc_wait := λ d, (Ok (Sim.returncode d), d);
     communicate := λ d, (Ok "Failure [INSTALL_FAILED]", d);
     list_installed_packages := Sim.packages;
     get_activity_stack := λ d, (Ok (Sim.stack d), d);
     get_version := λ _ d, (Ok v, d);
     input := λ _ d, (Ok tt, d);
     home_screen_active := Sim.at_home;
     go_home := λ d, (Ok tt, d);
     DANGEROUS_PERMISSIONS := Sim.dangerous;
     SLEEP_PKG_INSTALL := 1 |}.

(** The quiet device with a list of installed packages. *)
Definition with_packages (packages : list string) : Sim.t :=
  {| Sim.installed := [packages]; Sim.home := []; Sim.failing := []; Sim.pidof := "";
     Sim.stack := None; Sim.returncode := 0 |}.

(** The quiet device with a return code for monitored processes. *)
Definition exiting (code : Z) : Sim.t :=
  {| Sim.installed := []; Sim.home := []; Sim.failing := []; Sim.pidof := "";
     Sim.stack := None; Sim.returncode := code |}.

(** The install, push and remove commands of the factories. *)
Definition install_cmd (args : list string) (apk_path : string) : list string :=
  (["install"] ++ args ++ [apk_path])%list.
Definition remote_path (parser : AXML.t) : string :=
  "/data/local/tmp/" +:+ AXML.package_name parser.
Definition push_cmd (apk_path : string) (parser : AXML.t) : list string :=
  ["push"; apk_path; remote_path parser].
Definition pm_install_cmd (args : list string) (parser : AXML.t) : list string :=
  (["shell"; "pm"; "install"] ++ args ++ [remote_path parser])%list.
Definition rm_cmd (parser : AXML.t) : list string :=
  ["shell"; "rm"; remote_path parser].

(** A manifest, a test application and a listing of instrumentation. *)
Definition sample_manifest : AXML.t :=
  {| AXML.package_name := "com.example.app"; AXML.permissions := [];
     AXML.instrumentation := None |}.

Definition sample_test_app : TestApplication :=
  {| base := MkApplication "com.example.test" ∅ ∅ None; _runner := "Runner";
     _target_application := MkApplication "com.example.app" ∅ ∅ None |}.

Definition sample_instrumentation : list string :=
  ["instrumentation:com.example.test/androidx.test.runner.AndroidJUnitRunner (target=com.example.app)";
   "";
   "instrumentation:com.other.test/Runner (target=com.other)"].

(** * Properties *)

(** ** The monad *)

Example bind_sample :
  (x ← ret 1; _ ← modify (λ n, n + x); raise (A:=nat) IndexError) 2 = (Raise IndexError, 3).
Proof. reflexivity. Qed.

Lemma bind_ok {S A B} (m : M S A) (k : A → M S B) s a s' :
  m s = (Ok a, s') → (m ≫= k) s = k a s'.
Proof. intros Hm. unfold mbind, M_bind, bind. by rewrite Hm. Qed.

Lemma bind_raise {S A B} (m : M S A) (k : A → M S B) s e s' :
  m s = (Raise e, s') → (m ≫= k) s = (Raise e, s').
Proof. intros Hm. unfold mbind, M_bind, bind. by rewrite Hm. Qed.

Lemma bind_lift {S A B} (r : result A) (k : A → M S B) s :
  (lift_result r ≫= k) s = match r with Ok a => k a s | Raise e => (Raise e, s) end.
Proof. by destruct r. Qed.

(** ** Stripping white space *)

Module PyStrFacts.
Import PyStr.

Lemma rstrip_cons_keeps (c : ascii) (t : string) :
  isspace c = false → ∃ t', rstrip (String c t) = String c t'.
Proof.
  intros Hc. simpl. destruct (rstrip t); rewrite ?Hc; by eexists.
Qed.

Lemma rstrip_idemp (s : string) : rstrip (rstrip s) = rstrip s.
Proof.
  induction s as [|c t IH]; [done|]. simpl.
  destruct (rstrip t) as [|c' t'] eqn:Ht.
  - destruct (isspace c) eqn:Hc; [done|]. simpl. by rewrite Hc.
  - change (rstrip (String c (String c' t'))) with
      (match rstrip (String c' t') with
       | EmptyString => if isspace c then EmptyString else String c EmptyString
       | t'' => String c t''
       end).
    by rewrite IH.
Qed.

Lemma lstrip_head (s : string) :
  lstrip s = EmptyString ∨ ∃ c t, lstrip s = String c t ∧ isspace c = false.
Proof.
  induction s as [|c t IH]; [by left|]. simpl.
  destruct (isspace c) eqn:Hc; [done|]. right. by exists c, t.
Qed.

Lemma lstrip_strip (s : string) : lstrip (strip s) = strip s.
Proof.
  unfold strip. destruct (lstrip_head s) as [->|(c & t & -> & Hc)]; [done|].
  destruct (rstrip_cons_keeps c t Hc) as [t' ->]. simpl. by rewrite Hc.
Qed.

(** Stripping a stripped string changes nothing. *)
Lemma strip_idemp (s : string) : strip (strip s) = strip s.
Proof.
  unfold strip at 1. rewrite lstrip_strip. unfold strip. apply rstrip_idemp.
Qed.

End PyStrFacts.

(** ** Watchdog timer *)

Module TimingFacts.
Import Timing.

Lemma mark_end_no_task name s :
  _task (timer s) = None →
  mark_end name s = (Raise (PyException "Internal error: marking end without a start?!"), s).
Proof.
  intros Hnone. unfold mark_end. rewrite Hnone. by destruct (_future (timer s)).
Qed.

Lemma after_mark_ends_init names duration l :
  after_mark_ends names (Timer_init duration l) = Timer_init duration l.
Proof.
  induction names as [|name names IH]; [done|].
  unfold after_mark_ends in *. cbn [foldl].
  by rewrite mark_end_no_task.
Qed.

(** C9. On a timer that has been constructed and on which only [mark_end]
    has been called since (any number of times, [mark_start] never),
    [mark_end] raises the internal-error exception and the timer and the
    event loop are what they were at construction. *)
Theorem mark_end_before_mark_start (duration : Q) (l : event_loop)
    (names : list string) (name : string) :
  let s := after_mark_ends names (Timer_init duration l) in
  mark_end name s
  = (Raise (PyException "Internal error: marking end without a start?!"), s)
  ∧ s = Timer_init duration l.
Proof.
  simpl. rewrite after_mark_ends_init. split; [|done].
  by apply mark_end_no_task.
Qed.

(** After [mark_start], [mark_end] goes through: the guard is about the
    missing start and nothing else. *)
Lemma mark_end_after_mark_start duration l name :
  (mark_end name (mark_start name (Timer_init duration l)).2).1 = Ok tt.
Proof.
  unfold mark_end, mark_start, Timer_init. simpl.
  rewrite lookup_app_r; [|done]. by rewrite Nat.sub_diag.
Qed.

End TimingFacts.

(** ** Unfolding computations *)

Ltac unfold_monad :=
  unfold mbind, M_bind, bind, mret, M_ret, ret, raise, try_except, try_finally,
    lift_result, get, modify, zoom in *.

Ltac unfold_device :=
  unfold on_device, this, update_self, exec, sleep, emit, call in *; unfold_monad.

(** ** The loop over the activity stack *)

Lemma skip_silent_step (activity_stack : list string) (index : nat) :
  skip_silent activity_stack index =
  match activity_stack with
  | [] => Ok index
  | _ =>
      match activity_stack !! index with
      | None => Raise IndexError
      | Some entry =>
          if is_silent entry then skip_silent activity_stack (S index) else Ok index
      end
  end.
Proof.
  destruct activity_stack as [|a l]; [by simp skip_silent|].
  rewrite skip_silent_equation_2.
  destruct (Logic.inspect ((a :: l) !! index)) as [[entry|] Hentry];
    simp skip_silent; by rewrite Hentry.
Qed.

Lemma skip_silent_step_ne (activity_stack : list string) (index : nat) :
  activity_stack ≠ [] →
  skip_silent activity_stack index =
  match activity_stack !! index with
  | None => Raise IndexError
  | Some entry =>
      if is_silent entry then skip_silent activity_stack (S index) else Ok index
  end.
Proof. intros Hne. rewrite skip_silent_step. by destruct activity_stack. Qed.

(** On a stack of silent packages the loop runs off the end. *)
Lemma skip_silent_all_silent (activity_stack : list string) (index : nat) :
  activity_stack ≠ [] →
  Forall (λ entry, is_silent entry = true) activity_stack →
  skip_silent activity_stack index = Raise IndexError.
Proof.
  intros Hne Hall.
  remember (length activity_stack - index) as n eqn:Hn.
  revert index Hn.
  induction n as [|n IH]; intros index Hn; rewrite skip_silent_step_ne by done.
  - rewrite lookup_ge_None_2; [done|lia].
  - destruct (activity_stack !! index) as [entry|] eqn:Hentry; [|done].
    rewrite (proj1 (Forall_forall _ _) Hall entry).
    + apply IH. lia.
    + apply list_elem_of_lookup. eauto.
Qed.

(** The loop stops at the first entry that is not silent. *)
Lemma skip_silent_first (silent : list string) (entry : string) (below : list string)
    (index : nat) :
  Forall (λ e, is_silent e = true) silent →
  is_silent entry = false →
  (index ≤ length silent)%nat →
  skip_silent (silent ++ entry :: below)%list index = Ok (length silent).
Proof.
  intros Hall Hentry.
  remember (length silent - index) as n eqn:Hn.
  revert index Hn.
  induction n as [|n IH]; intros index Hn Hle;
    (rewrite skip_silent_step_ne; [|by destruct silent]).
  - assert (index = length silent) as -> by lia.
    rewrite list_lookup_middle; [|done]. by rewrite Hentry.
  - rewrite lookup_app_l; [|lia].
    destruct (silent !! index) as [e|] eqn:He.
    + rewrite (proj1 (Forall_forall _ _) Hall e).
      * apply IH; [lia|]. apply lookup_lt_Some in He. lia.
      * apply list_elem_of_lookup. eauto.
    + apply lookup_ge_None in He. lia.
Qed.

(** ** Scanning the log stream *)

(** Two lines are dropped before the start command. *)
Lemma subscribe_two_lines (timeout : option Z) (a b : string) (rest : list tick) :
  subscribe timeout 0 (Line a :: Line b :: rest) = Ok rest.
Proof. reflexivity. Qed.

Lemma scan_crash (timeout : option Z) (package_name : string) (detected : bool)
    (ahead behind : list tick) (line : string) :
  (timeout = None ∨ Expire ∉ ahead) →
  Forall (λ t, on_line (displays package_name) t = false) ahead →
  (detected = true ∨ Exists (λ t, on_line fatal t = true) (ahead ++ [Line line])%list) →
  process_of package_name line = true →
  scan timeout package_name detected (ahead ++ Line line :: behind)%list
  = Raise (PyException "App crashed on startup").
Proof.
  intros Hexp Hahead Hfatal Hprocess. revert detected Hfatal.
  induction ahead as [|t ahead IH]; intros detected Hfatal; simpl.
  - unfold process_of in Hprocess. apply andb_prop in Hprocess as [-> ->].
    destruct Hfatal as [Hd|Hfatal].
    + rewrite Hd. by destruct (PyStr.contains "FATAL EXCEPTION" line).
    + apply Exists_cons in Hfatal as [Hfatal|Hnil]; [|by apply Exists_nil in Hnil].
      simpl in Hfatal. unfold fatal in Hfatal. by rewrite Hfatal.
  - apply Forall_cons_1 in Hahead as [Ht Hahead].
    assert (timeout = None ∨ Expire ∉ ahead) as Hexp'.
    { destruct Hexp as [Hnone|Hnotin]; [by left|right].
      by apply not_elem_of_cons in Hnotin as [_ Htail]. }
    destruct t as [l|].
    + simpl in Ht. unfold displays in Ht. rewrite Ht.
      destruct (_ && _ && _); [done|].
      apply IH; [done|done|].
      destruct Hfatal as [Hd|Hfatal].
      * left. rewrite Hd. by destruct (PyStr.contains "FATAL EXCEPTION" l).
      * simpl in Hfatal. apply Exists_cons in Hfatal as [Hhere|Hlater].
        -- left. simpl in Hhere. unfold fatal in Hhere. by rewrite Hhere.
        -- by right.
    + destruct Hexp as [Hnone|Hnotin];
        [|by apply not_elem_of_cons in Hnotin as [Hhead _]].
      rewrite Hnone. rewrite Hnone in IH.
      apply IH; [by left|done|].
      destruct Hfatal as [Hd|Hfatal]; [by left|right].
      simpl in Hfatal. by apply Exists_cons in Hfatal as [Hhere|Hlater].
Qed.

Lemma scan_expires (t : Z) (package_name : string) (lines : list string)
    (behind : list tick) :
  Forall (λ line, fatal line = false ∧ displays package_name line = false) lines →
  scan (Some t) package_name false ((Line <$> lines) ++ Expire :: behind)%list
  = Raise AsyncTimeoutError.
Proof.
  induction 1 as [|line lines [Hfatal Hdisplays] _ IH]; simpl; [done|].
  unfold fatal in Hfatal. unfold displays in Hdisplays.
  by rewrite Hfatal, Hdisplays.
Qed.

(** A stream that ends lets the scan return. *)
Lemma scan_stream_ends (timeout : option Z) (package_name : string) (lines : list string) :
  Forall (λ line, fatal line = false ∧ displays package_name line = false) lines →
  scan timeout package_name false (Line <$> lines) = Ok tt.
Proof.
  induction 1 as [|line lines [Hfatal Hdisplays] _ IH]; simpl; [done|].
  unfold fatal in Hfatal. unfold displays in Hdisplays.
  by rewrite Hfatal, Hdisplays.
Qed.

Section DeviceFacts.
Context {D : Type} {boundary : DeviceBoundary D}.

Lemma call_eq {A} (op : D → result A * D) (w : world D) r d :
  op (dev w) = (r, d) → call op w = (r, World d (trace w)).
Proof. intros Hop. unfold call. by rewrite Hop. Qed.

(** ** Test invocation *)

(** C6. When the installed-package list the device reports does not hold
    both orchestrator support packages, [run_orchestrated] raises and the
    trace of commands is what it was: no instrumentation command has been
    issued. The case where neither package is installed is one of these. *)
Theorem run_orchestrated_needs_support_packages
    (t : TestApplication) (options : list string) (w : world D)
    (packages : list string) (d : D) :
  list_installed_packages (dev w) = (Ok packages, d) →
  ¬ support_packages_present packages →
  ∃ e, run_orchestrated t options w = (Raise e, World d (trace w)).
Proof.
  intros Hlist Habsent. unfold run_orchestrated.
  erewrite bind_ok; [|by apply call_eq].
  rewrite bool_decide_eq_true_2; [by eexists|].
  intros [Hsub _]. apply Habsent.
  split; apply (elem_of_list_to_set (C := gset string)), Hsub; set_solver.
Qed.

(** A failing package query is passed on, again before any command. *)
Lemma run_orchestrated_query_fails t options (w : world D) e d :
  list_installed_packages (dev w) = (Raise e, d) →
  run_orchestrated t options w = (Raise e, World d (trace w)).
Proof.
  intros Hlist. unfold run_orchestrated. erewrite bind_raise; [done|by apply call_eq].
Qed.

(** ** Foreground check *)

(** With an entry that is not silent on the stack, the answer is whether the
    first such entry is this package, letter case aside. *)
Lemma in_foreground_first_entry (o : obj D) (silent below : list string)
    (entry : string) (d : D) :
  get_activity_stack (dev (env o)) = (Ok (Some (silent ++ entry :: below)%list), d) →
  Forall (λ e, is_silent e = true) silent →
  is_silent entry = false →
  in_foreground true o
  = (Ok (bool_decide (PyStr.lower entry = PyStr.lower (_package_name (self o)))),
     Obj (self o) (World d (trace (env o)))).
Proof.
  intros Hstack Hsilent Hentry. unfold in_foreground. unfold_device.
  rewrite Hstack. simpl. rewrite skip_silent_first by (done || lia).
  rewrite bool_decide_eq_false_2; [|rewrite length_app; lia].
  by rewrite list_lookup_middle.
Qed.

(** Without such an entry the call ends in [IndexError]. *)
Lemma in_foreground_no_entry (o : obj D) (activity_stack : option (list string)) (d : D) :
  get_activity_stack (dev (env o)) = (Ok activity_stack, d) →
  Forall (λ e, is_silent e = true) (default [] activity_stack) →
  in_foreground true o = (Raise IndexError, Obj (self o) (World d (trace (env o)))).
Proof.
  intros Hstack Hsilent. unfold in_foreground. unfold_device.
  rewrite Hstack. simpl.
  destruct (default [] activity_stack) as [|a l] eqn:Hl.
  - by rewrite skip_silent_step.
  - by rewrite skip_silent_all_silent.
Qed.

(** ** Installation *)

(** [verify_install] is the check with one grace period: a package that is
    listed at once passes without a wait, *)
Lemma verify_install_present (package : string) (w : world D) packages d :
  list_installed_packages (dev w) = (Ok packages, d) →
  package ∈ packages →
  verify_install package w = (Ok tt, World d (trace w)).
Proof.
  intros Hlist Hin. unfold verify_install. unfold_device. rewrite Hlist. simpl.
  rewrite !bool_decide_eq_false_2; [done| |]; by intros Hn.
Qed.

(** a package listed after the wait passes, *)
Lemma verify_install_late (package : string) (w : world D) packages d packages' d' :
  list_installed_packages (dev w) = (Ok packages, d) →
  package ∉ packages →
  list_installed_packages d = (Ok packages', d') →
  package ∈ packages' →
  verify_install package w = (Ok tt, World d' (trace w ++ [Sleep SLEEP_PKG_INSTALL])).
Proof.
  intros Hlist Hnin Hlist' Hin. unfold verify_install. unfold_device.
  rewrite Hlist. simpl. rewrite bool_decide_eq_true_2 by done. simpl.
  rewrite Hlist'. simpl. rewrite bool_decide_eq_false_2; [done|]. by intros Hn.
Qed.

(** and a package still missing after the wait makes it raise. *)
Lemma verify_install_absent (package : string) (w : world D) packages d packages' d' :
  list_installed_packages (dev w) = (Ok packages, d) →
  package ∉ packages →
  list_installed_packages d = (Ok packages', d') →
  package ∉ packages' →
  verify_install package w
  = (Raise (verification_failure package),
     World d' (trace w ++ [Sleep SLEEP_PKG_INSTALL])).
Proof.
  intros Hlist Hnin Hlist' Hnin'. unfold verify_install. unfold_device.
  rewrite Hlist. simpl. rewrite bool_decide_eq_true_2 by done. simpl.
  rewrite Hlist'. simpl. by rewrite bool_decide_eq_true_2.
Qed.

(** [from_apk] does not go through it: once the apk parses and the install
    command returns, the application is built on the device state the
    install command left, whatever the device would list. *)
Lemma from_apk_skips_verification (parse : string → result AXML.t)
    (apk_path : string) (as_upgrade : bool) (w : world D) parser out d a :
  parse apk_path = Ok parser →
  Application_init (Parsed parser) = Ok a →
  execute_remote_cmd
    (["install"] ++ (if as_upgrade then ["-r"] else []) ++ [apk_path])%list (dev w)
  = (Ok out, d) →
  from_apk parse apk_path as_upgrade w
  = (Ok a,
     World d (trace w ++ [Exec (["install"] ++ (if as_upgrade then ["-r"] else [])
                                  ++ [apk_path])%list])).
Proof.
  intros Hparse Hinit Hexec. unfold from_apk, _install. unfold_device.
  rewrite Hparse. simpl in *. rewrite Hexec. simpl. by rewrite Hinit.
Qed.

(** ** Clean kill *)

(** C5 as amended. What decides [clean_kill] is the process and nothing
    else: when the home key, the polls, the kill command and the process
    query go through, it returns if no process is found and raises if one
    is, whatever the polls answered. *)
Theorem clean_kill_raises_iff_process_left (o o1 o2 : obj D) (p : option string) :
  background_and_kill o = (Ok tt, o1) →
  pid o1 = (Ok p, o2) →
  (p = None → clean_kill o = (Ok tt, o2))
  ∧ (is_Some p → raises (clean_kill o).1).
Proof.
  intros Hkill Hpid. unfold clean_kill.
  erewrite bind_ok by exact Hkill. erewrite bind_ok by exact Hpid.
  split.
  - by intros ->.
  - intros [x ->]. unfold_device.
    destruct (home_screen_active (dev (env o2))) as [[[|]|e] d]; by simpl.
Qed.

(** A failure on the way to the kill is passed on. *)
Lemma clean_kill_device_failure (o o1 : obj D) (e : exn) :
  background_and_kill o = (Raise e, o1) → clean_kill o = (Raise e, o1).
Proof. intros Hkill. unfold clean_kill. by erewrite bind_raise. Qed.

(** ** Launch *)

Lemma bind_this {A} (k : Application → M (obj D) A) (o : obj D) :
  (this ≫= k) o = k (self o) o.
Proof. reflexivity. Qed.

(** C3 as amended. Among the lines read after the start command, a line
    naming [Process] and the package, with a fatal-exception line at or
    before it, makes [launch] raise the crash failure, provided no line
    before it displays the package and the timeout does not run out before
    it. What follows that line, a [Displayed] line included, is not read. *)
Theorem launch_crash (o o1 o2 : obj D) (activity : string) (options : list string)
    (intent : option string) (timeout : option Z) (stream ahead behind : list tick)
    (line : string) :
  open_logcat o = (Ok tt, o1) →
  subscribe timeout 0 stream = Ok (ahead ++ Line line :: behind)%list →
  start activity options intent o1 = (Ok tt, o2) →
  (timeout = None ∨ Expire ∉ ahead) →
  Forall (λ t, on_line (displays (_package_name (self o))) t = false) ahead →
  Exists (λ t, on_line fatal t = true) (ahead ++ [Line line])%list →
  process_of (_package_name (self o)) line = true →
  launch activity options intent timeout stream o
  = (Raise (PyException "App crashed on startup"), o2).
Proof.
  intros Hopen Hsub Hstart Hexp Hahead Hfatal Hprocess. unfold launch.
  rewrite bind_this.
  erewrite bind_ok by exact Hopen.
  rewrite bind_lift, Hsub.
  erewrite bind_ok by exact Hstart.
  unfold lift_result. f_equal.
  apply scan_crash; [done|done| |done]. by right.
Qed.

(** C7 as amended. With a timeout that runs out while the stream is open,
    after lines none of which is a fatal-exception line or displays the
    package, [launch] does not return: it raises, and what it raises is the
    timeout failure when the log stream could be opened and the start
    command went through. *)
Theorem launch_times_out (o : obj D) (activity : string) (options : list string)
    (intent : option string) (t : Z) (lines : list string) (behind : list tick) :
  Forall (λ line, fatal line = false ∧ displays (_package_name (self o)) line = false)
    lines →
  let r := (launch activity options intent (Some t)
              ((Line <$> lines) ++ Expire :: behind)%list o).1 in
  raises r
  ∧ (∀ o1, open_logcat o = (Ok tt, o1) →
           is_ok (start activity options intent o1).1 = true →
           r = Raise AsyncTimeoutError).
Proof.
  intros Hlines. simpl. unfold launch.
  rewrite bind_this.
  destruct (open_logcat o) as [[[]|e] o1] eqn:Hopen.
  2:{ erewrite bind_raise by exact Hopen. split; [done|]. by intros o1' [=]. }
  erewrite bind_ok by exact Hopen.
  rewrite bind_lift.
  destruct lines as [|a [|b lines]]; simpl.
  1,2: split; [done|by intros].
  destruct (start activity options intent o1) as [[[]|e] o2] eqn:Hstart.
  2:{ erewrite bind_raise by exact Hstart. split; [done|].
      intros o1' [= <-]. by rewrite Hstart. }
  erewrite bind_ok by exact Hstart. unfold lift_result. simpl.
  apply Forall_cons_1 in Hlines as [_ Hlines].
  apply Forall_cons_1 in Hlines as [_ Hlines].
  change (list_fmap string tick Line lines) with (Line <$> lines).
  by rewrite scan_expires.
Qed.

(** ** Permissions *)

Lemma set_granted_same (a : Application) : set_granted (_granted_permissions a) a = a.
Proof. by destruct a. Qed.

Lemma grant_one_effect (p : string) (o : obj D) :
  ∃ d, grant_one p o
       = (Ok tt,
          Obj (set_granted ({[p]} ∪ _granted_permissions (self o)) (self o))
            (World d (trace (env o) ++ [Exec (grant_cmd (_package_name (self o)) p)]))).
Proof.
  unfold grant_one. unfold_device. simpl.
  destruct (execute_remote_cmd _ _) as [[out|e] d]; simpl; by eexists.
Qed.

(** The loop: every permission is recorded and has had its command, in the
    order of the iteration, whatever the device answered. *)
Lemma for_each_grant_one (l : list string) (o : obj D) :
  ∃ d, for_each l grant_one o
       = (Ok tt,
          Obj (set_granted (list_to_set l ∪ _granted_permissions (self o)) (self o))
            (World d (trace (env o)
                        ++ (Exec ∘ grant_cmd (_package_name (self o)) <$> l)))).
Proof.
  revert o. induction l as [|p l IH]; intros o.
  - exists (dev (env o)). simpl. rewrite (left_id_L ∅ (∪)), set_granted_same.
    rewrite (right_id_L [] (++)%list). by destruct o as [a [d tr]].
  - destruct (grant_one_effect p o) as [d Hone].
    cbn [for_each]. erewrite bind_ok by exact Hone.
    destruct (IH (Obj (set_granted ({[p]} ∪ _granted_permissions (self o)) (self o))
                    (World d (trace (env o)
                                ++ [Exec (grant_cmd (_package_name (self o)) p)]))))
      as [d' Hrest].
    exists d'. rewrite Hrest. simpl. f_equal. f_equal.
    + unfold set_granted. simpl. f_equal.
      by rewrite (assoc_L (∪)), (comm_L (∪) (list_to_set l)).
    + f_equal. by rewrite <- (assoc_L (++)%list).
Qed.

Lemma elem_of_permissions_filtered (requested : list string) (q : string) :
  q ∈ permissions_filtered requested
  ↔ ∃ p, p ∈ requested ∧ p ∈ DANGEROUS_PERMISSIONS ∧ q = PyStr.strip p.
Proof.
  unfold permissions_filtered. rewrite elem_of_list_to_set, list_elem_of_fmap.
  split.
  - intros (p & -> & Hp). apply list_elem_of_filter in Hp as [Hd Hp]. eauto.
  - intros (p & Hp & Hd & ->). exists p. split; [done|].
    by apply list_elem_of_filter.
Qed.

(** With nothing kept by the filter the call changes nothing. *)
Lemma grant_permissions_nothing (permissions : option (list string)) (o : obj D) :
  newly_granted permissions (self o) = ∅ →
  grant_permissions permissions o = (Ok ∅, o).
Proof.
  unfold newly_granted. intros Hempty. unfold grant_permissions. rewrite bind_this.
  by rewrite bool_decide_eq_true_2.
Qed.

(** Otherwise it runs the loop over what the filter kept. *)
Lemma grant_permissions_loop (permissions : option (list string)) (o : obj D) :
  newly_granted permissions (self o) ≠ ∅ →
  ∃ d,
    let granted := newly_granted permissions (self o) ∪ _granted_permissions (self o) in
    grant_permissions permissions o
    = (Ok granted,
       Obj (set_granted granted (self o))
         (World d (trace (env o)
                     ++ (Exec ∘ grant_cmd (_package_name (self o))
                           <$> elements (newly_granted permissions (self o)))))).
Proof.
  unfold newly_granted. intros Hne. unfold grant_permissions. rewrite bind_this.
  rewrite bool_decide_eq_false_2 by done.
  destruct (for_each_grant_one
              (elements (permissions_filtered
                           (or_default permissions (_permissions (self o))))) o)
    as [d Hloop].
  exists d. erewrite bind_ok by exact Hloop.
  rewrite bind_this. simpl. by rewrite list_to_set_elements_L.
Qed.


Lemma self_after_grant (permissions : option (list string)) (o : obj D) :
  self (grant_permissions permissions o).2
  = set_granted (newly_granted permissions (self o) ∪ _granted_permissions (self o))
      (self o).
Proof.
  destruct (decide (newly_granted permissions (self o) = ∅)) as [Hempty|Hne].
  - rewrite grant_permissions_nothing by done. rewrite Hempty. simpl.
    by rewrite (left_id_L ∅ (∪)), set_granted_same.
  - by destruct (grant_permissions_loop permissions o Hne) as [d ->].
Qed.

Lemma self_after_regrant (o : obj D) :
  self (regrant_permissions o).2
  = set_granted
      (newly_granted (Some (elements (_granted_permissions (self o)))) (self o)
         ∪ _granted_permissions (self o))
      (self o).
Proof. unfold regrant_permissions. rewrite bind_this. apply self_after_grant. Qed.

Lemma state_bind_unit {S A} (m : M S A) (s : S) : ((m;; mret tt) s).2 = (m s).2.
Proof. unfold mbind, M_bind, bind. by destruct (m s) as [[a|e] s']. Qed.

(** [clear_data] by the outcome of the clear command. *)
Lemma self_after_clear_data (regrant : bool) (o : obj D) :
  self (clear_data regrant o).2
  = match (execute_remote_cmd (clear_cmd (_package_name (self o))) (dev (env o))).1 with
    | Raise _ => self o
    | Ok _ =>
        if regrant then
          set_granted
            (newly_granted (Some (elements (_granted_permissions (self o)))) (self o)
               ∪ _granted_permissions (self o))
            (self o)
        else set_granted ∅ (self o)
    end.
Proof.
  unfold clear_data. rewrite bind_this.
  destruct (execute_remote_cmd (clear_cmd (_package_name (self o))) (dev (env o)))
    as [[out|e] d] eqn:Hclear; simpl.
  - erewrite bind_ok; last first.
    { unfold_device. simpl. by rewrite Hclear. }
    destruct regrant; [|done].
    by rewrite state_bind_unit, self_after_regrant.
  - erewrite bind_raise; last first.
    { unfold_device. simpl. by rewrite Hclear. }
    done.
Qed.

(** A property that the stripped form of every dangerous permission has is
    kept by every element of [granted_permissions]. *)
Lemma granted_permissions_keep (P : string → Prop) :
  (∀ p, p ∈ DANGEROUS_PERMISSIONS → P (PyStr.strip p)) →
  ∀ o : obj D,
    set_Forall P (_granted_permissions (self o)) →
    (∀ permissions,
       set_Forall P (_granted_permissions (self (grant_permissions permissions o).2)))
    ∧ set_Forall P (_granted_permissions (self (regrant_permissions o).2))
    ∧ (∀ regrant, set_Forall P (_granted_permissions (self (clear_data regrant o).2))).
Proof.
  intros Hstrip o Hold.
  assert (∀ permissions,
            set_Forall P (newly_granted permissions (self o)
                            ∪ _granted_permissions (self o))) as Hnew.
  { intros permissions q [Hq|Hq]%elem_of_union; [|by apply Hold].
    apply elem_of_permissions_filtered in Hq as (p & _ & Hd & ->). by apply Hstrip. }
  split; [|split].
  - intros permissions. rewrite self_after_grant. apply Hnew.
  - rewrite self_after_regrant. apply Hnew.
  - intros regrant. rewrite self_after_clear_data.
    destruct (execute_remote_cmd _ _).1; [|done].
    destruct regrant; [apply Hnew|]. by intros q Hq%elem_of_empty.
Qed.


(** The elements of [granted_permissions] carry no white space around
    them, from construction on. *)
Lemma granted_permissions_stripped (o : obj D) :
  set_Forall (λ q, PyStr.strip q = q) (_granted_permissions (self o)) →
  (∀ permissions,
     set_Forall (λ q, PyStr.strip q = q)
       (_granted_permissions (self (grant_permissions permissions o).2)))
  ∧ set_Forall (λ q, PyStr.strip q = q)
      (_granted_permissions (self (regrant_permissions o).2))
  ∧ (∀ regrant,
       set_Forall (λ q, PyStr.strip q = q)
         (_granted_permissions (self (clear_data regrant o).2))).
Proof.
  apply granted_permissions_keep. intros p _. apply PyStrFacts.strip_idemp.
Qed.

(** ** Clearing data *)

(** Without regrant, and the clear command gone through, nothing is left
    granted. *)
Lemma clear_data_forgets (o : obj D) (out : string) (d : D) :
  execute_remote_cmd (clear_cmd (_package_name (self o))) (dev (env o)) = (Ok out, d) →
  _granted_permissions (self (clear_data false o).2) = ∅.
Proof. intros Hclear. rewrite self_after_clear_data. by rewrite Hclear. Qed.

(** With regrant, a set that was not empty is there again afterwards. *)
Lemma clear_data_regrant_keeps (o : obj D) :
  _granted_permissions (self o) ≠ ∅ →
  set_Forall (λ q, PyStr.strip q = q) (_granted_permissions (self o)) →
  _granted_permissions (self (clear_data true o).2) = _granted_permissions (self o).
Proof.
  intros Hne Hstripped. rewrite self_after_clear_data.
  destruct (execute_remote_cmd _ _).1; [|done]. simpl.
  apply subseteq_union_1_L. intros q Hq.
  apply elem_of_permissions_filtered in Hq as (p & Hp & _ & ->).
  assert (p ∈ _granted_permissions (self o)) as Hin.
  { apply elem_of_elements. revert Hp. unfold or_default.
    destruct (elements (_granted_permissions (self o))) as [|x l] eqn:Hel; [|done].
    by apply elements_empty_inv, leibniz_equiv in Hel. }
  by rewrite (Hstripped p Hin).
Qed.

End DeviceFacts.

(** C6, on a device with no package installed. *)
Lemma run_orchestrated_needs_support_packages_witness :
  ∃ e, run_orchestrated (boundary := Sim.boundary Sim.dangerous)
         {| base := MkApplication "com.example.test" ∅ ∅ None; _runner := "Runner";
            _target_application := MkApplication "com.example.app" ∅ ∅ None |}
         ["-e"; "debug"; "false"] (Sim.fresh Sim.idle)
       = (Raise e, Sim.fresh Sim.idle).
Proof.
  apply (run_orchestrated_needs_support_packages (boundary := Sim.boundary Sim.dangerous)
           _ _ (Sim.fresh Sim.idle) [] Sim.idle).
  - reflexivity.
  - unfold support_packages_present. intros [Hin _]. inversion Hin.
Defined.

(** C8, where the code departs from it. On an empty activity stack (reported
    as [None] or as the empty list) and on a stack made of silent packages
    only, [in_foreground(ignore_silent_apps=True)] does not return [False]: it
    raises [IndexError]. *)
Theorem in_foreground_without_entry_raises :
  let in_foreground_on activity_stack :=
    (in_foreground (boundary := Sim.boundary Sim.dangerous) true
       (Obj (Sim.app "com.example.app" []) (Sim.fresh (Sim.showing activity_stack)))).1 in
  in_foreground_on None = Raise IndexError
  ∧ in_foreground_on (Some []) = Raise IndexError
  ∧ in_foreground_on (Some ["com.wssyncmldm"; "com.bitbar.testdroid.monitor"])
    = Raise IndexError.
Proof. by vm_compute. Qed.

(** With another package under the silent ones the check answers. *)
Example in_foreground_sample :
  (in_foreground (boundary := Sim.boundary Sim.dangerous) true
     (Obj (Sim.app "com.example.app" [])
        (Sim.fresh (Sim.showing (Some ["com.wssyncmldm"; "Com.Example.App"; "launcher"]))))).1
  = Ok true.
Proof. by vm_compute. Qed.

(** C1, where the code departs from it. On a device that never lists the
    package, [from_apk] and [from_apk_async] still return the application once
    the install went through; [verify_install] on the state they leave
    raises, and neither called it. *)
Theorem from_apk_returns_unverified :
  let parse := λ _ : string,
    Ok {| AXML.package_name := "com.example.app"; AXML.permissions := [];
          AXML.instrumentation := None |} in
  let never_listed := Sim.fresh Sim.idle in
  (∃ w, from_apk (boundary := Sim.boundary Sim.dangerous) parse "app.apk" false never_listed
        = (Ok (Sim.app "com.example.app" []), w)
        ∧ (verify_install (boundary := Sim.boundary Sim.dangerous) "com.example.app" w).1
          = Raise (verification_failure "com.example.app"))
  ∧ (∃ w, from_apk_async (boundary := Sim.boundary Sim.dangerous) parse "app.apk" false None
            never_listed
          = (Ok (Sim.app "com.example.app" []), w)
          ∧ (verify_install (boundary := Sim.boundary Sim.dangerous) "com.example.app" w).1
            = Raise (verification_failure "com.example.app")).
Proof. split; eexists; split; by vm_compute. Qed.

(** C5 as stated fails: the home screen is not active at any of the three
    polls (a half-second wait follows each) nor afterwards, no process is
    left, and [clean_kill] returns. *)
Lemma clean_kill_returns_away_from_home :
  let o := Obj (Sim.app "com.example.app" []) (Sim.fresh Sim.idle) in
  clean_kill (boundary := Sim.boundary Sim.dangerous) o
  = (Ok tt,
     Obj (Sim.app "com.example.app" [])
       (World Sim.idle
          [Sleep (1 # 2); Sleep (1 # 2); Sleep (1 # 2);
           Exec ["shell"; "am"; "kill"; "com.example.app"];
           Exec ["shell"; "pidof"; "-s"; "com.example.app"]]))
  ∧ (∀ w, dev w = Sim.idle →
          (call (@home_screen_active _ (Sim.boundary Sim.dangerous)) w).1 = Ok false).
Proof.
  split; [by vm_compute|]. intros [d tr] Hd. simpl in Hd. by subst.
Qed.

(** C5 as amended, on a device where the process survives the kill. *)
Lemma clean_kill_raises_iff_process_left_witness :
  let o := Obj (Sim.app "com.example.app" [])
             (Sim.fresh {| Sim.installed := []; Sim.home := [true]; Sim.failing := [];
                           Sim.pidof := "4242"; Sim.stack := None; Sim.returncode := 0 |}) in
  ∃ o1 o2,
    background_and_kill (boundary := Sim.boundary Sim.dangerous) o = (Ok tt, o1)
    ∧ pid (boundary := Sim.boundary Sim.dangerous) o1 = (Ok (Some "4242"), o2)
    ∧ raises (clean_kill (boundary := Sim.boundary Sim.dangerous) o).1.
Proof.
  do 2 eexists. split; [by vm_compute|]. split; [by vm_compute|].
  eapply (clean_kill_raises_iff_process_left (boundary := Sim.boundary Sim.dangerous)).
  - by vm_compute.
  - by vm_compute.
  - by eexists.
Defined.

(** C3 as stated fails. The stream has a fatal-exception line and after it a
    line naming [Process] and the package, and [launch] returns: in the first
    stream the package is displayed between the two lines, in the second
    before both. With or without a timeout. *)
Lemma launch_displayed_before_process :
  let o := Obj (Sim.app "com.example.app" []) (Sim.fresh Sim.idle) in
  let between :=
    Line <$> [Sim.banner_main; Sim.banner_system; Sim.fatal_line; Sim.displayed_line;
              Sim.process_line] in
  let before :=
    Line <$> [Sim.banner_main; Sim.banner_system; Sim.displayed_line; Sim.fatal_line;
              Sim.process_line] in
  fatal Sim.fatal_line = true
  ∧ process_of "com.example.app" Sim.process_line = true
  ∧ ∀ timeout, timeout = None ∨ timeout = Some 30%Z →
      (launch (boundary := Sim.boundary Sim.dangerous) "MainActivity" [] None timeout
         between o).1 = Ok tt
      ∧ (launch (boundary := Sim.boundary Sim.dangerous) "MainActivity" [] None timeout
           before o).1 = Ok tt.
Proof.
  split; [by vm_compute|]. split; [by vm_compute|].
  intros timeout [->| ->]; by vm_compute.
Qed.

(** C3 as amended, on a crash followed by a [Displayed] line. *)
Lemma launch_crash_witness :
  ∃ o2,
    launch (boundary := Sim.boundary Sim.dangerous) "MainActivity" [] None (Some 30%Z)
      (Line <$> [Sim.banner_main; Sim.banner_system; Sim.start_line; Sim.fatal_line;
                 Sim.process_line; Sim.displayed_line])
      (Obj (Sim.app "com.example.app" []) (Sim.fresh Sim.idle))
    = (Raise (PyException "App crashed on startup"), o2).
Proof.
  eexists.
  eapply (launch_crash (boundary := Sim.boundary Sim.dangerous) _ _ _ _ _ _ _ _
            (Line <$> [Sim.start_line; Sim.fatal_line]) [Line Sim.displayed_line]
            Sim.process_line).
  - by vm_compute.
  - by vm_compute.
  - by vm_compute.
  - right. intros Hin. by repeat (apply elem_of_cons in Hin as [Hin|Hin]; [done|]);
      apply elem_of_nil in Hin.
  - repeat constructor.
  - apply Exists_cons_tl, Exists_cons_hd. by vm_compute.
  - by vm_compute.
Defined.

(** C7 as stated fails. A timeout is given, no line is a fatal-exception line
    or displays the package, the stream ends before the timeout runs out, and
    [launch] returns. *)
Lemma launch_returns_when_stream_ends :
  let lines := [Sim.banner_main; Sim.banner_system; Sim.start_line] in
  Forall (λ line, fatal line = false ∧ displays "com.example.app" line = false) lines
  ∧ (launch (boundary := Sim.boundary Sim.dangerous) "MainActivity" [] None (Some 30%Z)
       (Line <$> lines) (Obj (Sim.app "com.example.app" []) (Sim.fresh Sim.idle))).1
    = Ok tt.
Proof. split; [|by vm_compute]. repeat constructor. Qed.

(** C7 as amended, on the same lines with the timeout running out after them. *)
Lemma launch_times_out_witness :
  (launch (boundary := Sim.boundary Sim.dangerous) "MainActivity" [] None (Some 30%Z)
     ((Line <$> [Sim.banner_main; Sim.banner_system; Sim.start_line]) ++ [Expire])%list
     (Obj (Sim.app "com.example.app" []) (Sim.fresh Sim.idle))).1
  = Raise AsyncTimeoutError.
Proof.
  eapply (launch_times_out (boundary := Sim.boundary Sim.dangerous)).
  - repeat constructor.
  - by vm_compute.
  - by vm_compute.
Defined.


(** C2, where the code departs from it. Nothing is granted, the manifest
    declares the camera permission, and after [clear_data] with regrant the
    camera permission is granted: the empty set is taken for a missing
    argument and the declared permissions are granted in its place. *)
Theorem clear_data_regrant_grants_declared :
  let o := Obj (Sim.app "com.example.app"
                  ["android.permission.CAMERA"; "android.permission.INTERNET"])
             (Sim.fresh Sim.idle) in
  granted_permissions (self o) = ∅
  ∧ (clear_data (boundary := Sim.boundary Sim.dangerous) true o).1 = Ok tt
  ∧ granted_permissions (self (clear_data (boundary := Sim.boundary Sim.dangerous) true o).2)
    = {["android.permission.CAMERA"]}
  ∧ trace (env (clear_data (boundary := Sim.boundary Sim.dangerous) true o).2)
    = [Exec (clear_cmd "com.example.app");
       Exec (grant_cmd "com.example.app" "android.permission.CAMERA")].
Proof. repeat split; by vm_compute. Qed.


(** The condition of C10 on the dangerous-permission set is needed: were an
    entry of the set padded, its stripped form would be granted. *)
Example granted_outside_padded_set :
  let padded : gset string := {[" android.permission.CAMERA"]} in
  granted_permissions
    (self (grant_permissions (boundary := Sim.boundary padded)
             (Some [" android.permission.CAMERA"])
             (Obj (Sim.app "com.example.app" []) (Sim.fresh Sim.idle))).2)
  = {["android.permission.CAMERA"]}
  ∧ "android.permission.CAMERA" ∉ padded.
Proof. split; by vm_compute. Qed.

(** * Further properties *)

(** ** Construction *)

(** X1. [Application.__init__] succeeds exactly when the manifest gives a
    package name that is not empty (a dictionary without the key gives none);
    the application then carries that name and the declared permissions, with
    nothing granted and no version cached. *)
Theorem Application_init_outcome (m : manifest) :
  let name := match m with
              | Parsed parser => AXML.package_name parser
              | Dict d => default "" (dict_package_name d)
              end in
  let declared := match m with
                  | Parsed parser => AXML.permissions parser
                  | Dict d => default [] (dict_permissions d)
                  end in
  (name = "" ↔ ∃ msg, Application_init m = Raise (ValueError msg))
  ∧ (name ≠ "" ↔ ∃ a, Application_init m = Ok a)
  ∧ (∀ a, Application_init m = Ok a →
          _package_name a = name
          ∧ (∀ p, p ∈ _permissions a ↔ p ∈ declared)
          ∧ _granted_permissions a = ∅
          ∧ _version a = None).
Proof.
  simpl. unfold Application_init. case_bool_decide as Hname.
  - split; [|split].
    + split; [by eexists|done].
    + split; [done|by intros [a [=]]].
    + by intros a [=].
  - split; [|split].
    + split; [done|by intros [msg [=]]].
    + split; [by eexists|done].
    + intros a [= <-]. simpl. repeat split; try done; by rewrite elem_of_list_to_set.
Qed.

(** X2. [TestApplication.__init__] succeeds exactly when the manifest has a
    package name and an instrumentation element whose target package and
    runner are not empty; the test application then carries that runner and
    a target application of that name with nothing declared or granted. *)
Theorem TestApplication_init_outcome (manifest : AXML.t) :
  ((∃ t, TestApplication_init manifest = Ok t)
   ↔ AXML.package_name manifest ≠ ""
     ∧ ∃ i, AXML.instrumentation manifest = Some i
            ∧ AXML.target_package i ≠ "" ∧ AXML.runner i ≠ "")
  ∧ (∀ t i, TestApplication_init manifest = Ok t →
            AXML.instrumentation manifest = Some i →
            Application_init (Parsed manifest) = Ok (base t)
            ∧ _runner t = AXML.runner i
            ∧ _target_application t = MkApplication (AXML.target_package i) ∅ ∅ None).
Proof.
  unfold TestApplication_init, Application_init.
  destruct (AXML.instrumentation manifest) as [i|] eqn:Hi; repeat case_bool_decide;
    simpl; (split; [split|]); try (by intros [t [=]]); try (by intros t i' [=]);
    try (by intros [Hn (i' & [=] & Ht & Hr)]); try (by intros [Hn (i' & [= <-] & Ht & Hr)]).
  - intros _. split; [done|]. by exists i.
  - by eexists.
  - by intros t i' [= <-] [= <-].
Qed.

(** ** More on the scan of the log stream *)

Lemma scan_displayed (timeout : option Z) (package_name : string)
    (ahead behind : list tick) (line : string) :
  (timeout = None ∨ Expire ∉ ahead) →
  Forall (λ t, on_line fatal t = false ∧ on_line (displays package_name) t = false) ahead →
  displays package_name line = true →
  fatal line && PyStr.contains "Process" line = false →
  scan timeout package_name false (ahead ++ Line line :: behind)%list = Ok tt.
Proof.
  intros Hexp Hahead Hdisplays Hcrash.
  induction ahead as [|t ahead IH]; simpl.
  - unfold fatal in Hcrash. unfold displays in Hdisplays. rewrite Hdisplays.
    destruct (PyStr.contains "FATAL EXCEPTION" line),
      (PyStr.contains "Process" line); simpl in *; done.
  - apply Forall_cons_1 in Hahead as [[Hfatal Hnot] Hahead].
    destruct t as [l|]; simpl in *.
    + unfold fatal in Hfatal. unfold displays in Hnot. rewrite Hfatal, Hnot. simpl.
      apply IH; [|done]. destruct Hexp as [Hnone|Hnotin]; [by left|right].
      by apply not_elem_of_cons in Hnotin as [_ Htail].
    + destruct Hexp as [Hnone|Hnotin];
        [|by apply not_elem_of_cons in Hnotin as [Hhead _]].
      rewrite Hnone. rewrite Hnone in IH. apply IH; [by left|done].
Qed.

Lemma scan_without_fatal (timeout : option Z) (package_name : string) (rest : list tick) :
  Forall (λ t, on_line fatal t = false) rest →
  scan timeout package_name false rest = Ok tt
  ∨ (is_Some timeout ∧ scan timeout package_name false rest = Raise AsyncTimeoutError).
Proof.
  induction 1 as [|t rest Hfatal _ IH]; simpl; [by left|].
  destruct t as [l|]; simpl in *.
  - unfold fatal in Hfatal. rewrite Hfatal. simpl.
    by destruct (PyStr.contains "Displayed" l && PyStr.contains package_name l); [left|].
  - destruct timeout as [t|]; [right|done]. by split.
Qed.

(** ** Quoting of options *)

Lemma starts_with_dquote (s : string) : PyStr.startswith dquote (dquote +:+ s) = true.
Proof.
  unfold PyStr.startswith, dquote. cbn. by destruct s.
Qed.

(** X22. Quoting an option a second time changes nothing, and an option
    that starts with a dash is never quoted. *)
Theorem quote_option_idempotent (arg : string) :
  quote_option (quote_option arg) = quote_option arg
  ∧ (PyStr.startswith "-" arg = true → quote_option arg = arg).
Proof.
  unfold quote_option. split.
  - destruct (negb (PyStr.startswith dquote arg) && negb (PyStr.startswith "-" arg))
      eqn:Hq; [|by rewrite Hq].
    by rewrite starts_with_dquote.
  - intros ->. by rewrite andb_false_r.
Qed.

(** ** White space and runner names *)

Lemma contains_space_cons (c : ascii) (t : string) :
  PyStr.contains " " (String c t) = bool_decide (c = " "%char) || PyStr.contains " " t.
Proof.
  cbn [PyStr.contains String.prefix].
  destruct (Ascii.ascii_dec " " c) as [<-|Hne].
  - rewrite bool_decide_eq_true_2 by done. by destruct t.
  - by rewrite bool_decide_eq_false_2.
Qed.

Lemma first_word_no_space (s : string) : PyStr.contains " " (first_word s) = false.
Proof.
  induction s as [|c t IH]; [done|]. cbn [first_word].
  case_bool_decide as Hc; [done|].
  by rewrite contains_space_cons, IH, bool_decide_eq_false_2.
Qed.

Lemma lstrip_no_space (s : string) :
  PyStr.contains " " s = false → PyStr.contains " " (PyStr.lstrip s) = false.
Proof.
  induction s as [|c t IH]; [done|]. intros Hs. cbn [PyStr.lstrip].
  destruct (PyStr.isspace c); [|done].
  rewrite contains_space_cons in Hs. apply orb_false_elim in Hs as [_ Ht]. by apply IH.
Qed.

Lemma rstrip_no_space (s : string) :
  PyStr.contains " " s = false → PyStr.contains " " (PyStr.rstrip s) = false.
Proof.
  induction s as [|c t IH]; [done|]. intros Hs.
  rewrite contains_space_cons in Hs. apply orb_false_elim in Hs as [Hc Ht].
  specialize (IH Ht). cbn [PyStr.rstrip].
  destruct (PyStr.rstrip t) as [|c' t'] eqn:Hr.
  - destruct (PyStr.isspace c); [done|]. by rewrite contains_space_cons, Hc.
  - by rewrite contains_space_cons, Hc, IH.
Qed.

Lemma runner_of_shape (line : string) :
  PyStr.contains " " (runner_of line) = false
  ∧ PyStr.strip (runner_of line) = runner_of line.
Proof.
  unfold runner_of. split; [|apply PyStrFacts.strip_idemp].
  unfold PyStr.strip. apply rstrip_no_space, lstrip_no_space, first_word_no_space.
Qed.

Section MoreFacts.
Context {D : Type} {boundary : DeviceBoundary D}.

(** ** Installation *)

(** X3. [verify_install] with both package queries answered: a package
    listed at once passes with no wait; one listed only at the second query
    passes after one wait of [SLEEP_PKG_INSTALL]; one listed at neither
    raises the verification failure after that one wait. *)
Theorem verify_install_contract (package : string) (w : world D)
    (packages packages' : list string) (d d' : D) :
  list_installed_packages (dev w) = (Ok packages, d) →
  list_installed_packages d = (Ok packages', d') →
  (package ∈ packages → verify_install package w = (Ok tt, World d (trace w)))
  ∧ (package ∉ packages → package ∈ packages' →
     verify_install package w = (Ok tt, World d' (trace w ++ [Sleep SLEEP_PKG_INSTALL])))
  ∧ (package ∉ packages → package ∉ packages' →
     verify_install package w
     = (Raise (verification_failure package),
        World d' (trace w ++ [Sleep SLEEP_PKG_INSTALL]))).
Proof.
  intros Hlist Hlist'. split; [|split].
  - by apply verify_install_present.
  - intros. by eapply verify_install_late.
  - intros. by eapply verify_install_absent.
Qed.

(** X4. [TestApplication.from_apk] looks at the instrumentation element only
    after the install: for an apk that parses but is no test application the
    install command is sent and has gone through when the call raises. *)
Theorem test_from_apk_installs_before_validating (parse : string → result AXML.t)
    (apk_path : string) (as_upgrade : bool) (w : world D) (parser : AXML.t) (e : exn)
    (out : string) (d : D) :
  let cmd := install_cmd (if negb as_upgrade then ["-t"] else ["-r"; "-t"]) apk_path in
  parse apk_path = Ok parser →
  TestApplication_init parser = Raise e →
  execute_remote_cmd cmd (dev w) = (Ok out, d) →
  TestApplication_from_apk parse apk_path as_upgrade w
  = (Raise e, World d (trace w ++ [Exec cmd])).
Proof.
  simpl. intros Hparse Hinit Hexec. unfold TestApplication_from_apk, _install.
  rewrite bind_lift, Hparse. unfold install_cmd in Hexec. unfold_device.
  simpl in *. rewrite Hexec. simpl. by rewrite Hinit.
Qed.

(** The cleanup of [_monitor_install]: the remove command is sent and its
    failure dropped. *)
Lemma cleanup_effect (parser : AXML.t) (w : world D) :
  ∃ d, try_except (exec (rm_cmd parser);; mret tt) (λ _, mret tt) w
       = (Ok tt, World d (trace w ++ [Exec (rm_cmd parser)])).
Proof.
  unfold_device. simpl.
  destruct (execute_remote_cmd (rm_cmd parser) (dev w)) as [[out|e] d]; by eexists.
Qed.

Lemma try_finally_cleanup {A} (body : M (world D) A) (parser : AXML.t) (w w1 : world D)
    (r : result A) :
  body w = (r, w1) →
  ∃ d, try_finally body (try_except (exec (rm_cmd parser);; mret tt) (λ _, mret tt)) w
       = (r, World d (trace w1 ++ [Exec (rm_cmd parser)])).
Proof.
  intros Hbody. destruct (cleanup_effect parser w1) as [d Hclean].
  exists d. unfold try_finally. by rewrite Hbody, Hclean.
Qed.

(** X5. [_monitor_install] removes the pushed file whatever happens: once the
    apk parses, the last command it sends is the remove of the temporary
    path; when the apk does not parse it sends nothing. *)
Theorem monitor_install_cleans_up (parse : string → result AXML.t) (apk_path : string)
    (args : list string) (callback : option (M (world D) unit)) (w : world D) :
  match parse apk_path with
  | Ok parser =>
      ∃ r d tr, _monitor_install parse apk_path args callback w
                = (r, World d (tr ++ [Exec (rm_cmd parser)]))
  | Raise e => _monitor_install parse apk_path args callback w = (Raise e, w)
  end.
Proof.
  unfold _monitor_install. rewrite bind_lift.
  destruct (parse apk_path) as [parser|e]; [|done].
  match goal with
  | |- ∃ r d tr, try_finally ?body _ _ = _ => destruct (body w) as [r w1] eqn:Hbody
  end.
  destruct (try_finally_cleanup _ parser _ _ _ Hbody) as [d Hfin].
  exists r, d, (trace w1). exact Hfin.
Qed.

(** X6. A push that fails ends [_monitor_install] before the install is
    started: a command failure of the push comes out as an I/O failure, any
    other exception as it is, and only the push and the remove were sent. *)
Theorem monitor_install_push_fails (parse : string → result AXML.t) (apk_path : string)
    (args : list string) (callback : option (M (world D) unit)) (w : world D)
    (parser : AXML.t) (e : exn) (d : D) :
  parse apk_path = Ok parser →
  execute_remote_cmd (push_cmd apk_path parser) (dev w) = (Raise e, d) →
  ∃ d',
    _monitor_install parse apk_path args callback w
    = (Raise match e with
             | CommandExecutionFailure msg => IOError ("Unable to push apk to device " +:+ msg)
             | _ => e
             end,
       World d' (trace w ++ [Exec (push_cmd apk_path parser); Exec (rm_cmd parser)])).
Proof.
  intros Hparse Hpush. unfold _monitor_install. rewrite bind_lift, Hparse.
  match goal with
  | |- ∃ d', try_finally ?body _ _ = _ =>
      assert (body w
              = (Raise match e with
                       | CommandExecutionFailure msg =>
                           IOError ("Unable to push apk to device " +:+ msg)
                       | _ => e
                       end,
                 World d (trace w ++ [Exec (push_cmd apk_path parser)]))) as Hbody
  end.
  { unfold push_cmd, remote_path in Hpush. unfold_device. simpl. rewrite Hpush.
    by destruct e. }
  destruct (try_finally_cleanup _ parser _ _ _ Hbody) as [d' Hfin].
  exists d'. refine (eq_trans Hfin _). simpl. by rewrite <- (assoc_L (++)%list).
Qed.

(** X7. With the push done, the install process started and no callback, the
    return code decides [_monitor_install]: zero returns, anything else
    raises a command failure that carries the output of the process; the
    push, the install and the remove were sent, in that order. *)
Theorem monitor_install_return_code (parse : string → result AXML.t) (apk_path : string)
    (args : list string) (w : world D) (parser : AXML.t) (pushed out : string)
    (returncode : Z) (d1 d2 d3 d4 : D) :
  parse apk_path = Ok parser →
  execute_remote_cmd (push_cmd apk_path parser) (dev w) = (Ok pushed, d1) →
  monitor_remote_cmd (pm_install_cmd args parser) d1 = (Ok tt, d2) →
  proc_wait d2 = (Ok returncode, d3) →
  communicate d3 = (Ok out, d4) →
  ∃ d',
    _monitor_install parse apk_path args None w
    = (if bool_decide (returncode = 0%Z) then Ok tt
       else Raise (CommandExecutionFailure
                     ("Install of " +:+ apk_path +:+ " failed: " +:+ out)),
       World d' (trace w ++ [Exec (push_cmd apk_path parser);
                             Monitor (pm_install_cmd args parser);
                             Exec (rm_cmd parser)])).
Proof.
  intros Hparse Hpush Hmon Hwait Hcomm. unfold _monitor_install.
  rewrite bind_lift, Hparse.
  match goal with
  | |- ∃ d', try_finally ?body _ _ = _ =>
      assert (body w
              = (if bool_decide (returncode = 0%Z) then Ok tt
                 else Raise (CommandExecutionFailure
                               ("Install of " +:+ apk_path +:+ " failed: " +:+ out)),
                 World (if bool_decide (returncode = 0%Z) then d3 else d4)
                   (trace w ++ [Exec (push_cmd apk_path parser);
                                Monitor (pm_install_cmd args parser)]))) as Hbody
  end.
  { unfold push_cmd, pm_install_cmd, remote_path in *. unfold_device. simpl in *.
    rewrite Hpush. simpl. rewrite Hmon. simpl. rewrite Hwait. simpl.
    rewrite <- !(assoc_L (++)%list). simpl.
    destruct (decide (returncode = 0%Z)) as [Hz|Hnz].
    - rewrite (bool_decide_eq_false_2 (returncode ≠ 0%Z)) by (by intros Hn).
      by rewrite (bool_decide_eq_true_2 (returncode = 0%Z)).
    - rewrite (bool_decide_eq_true_2 (returncode ≠ 0%Z)) by done.
      rewrite (bool_decide_eq_false_2 (returncode = 0%Z)) by done.
      simpl. by rewrite Hcomm. }
  destruct (try_finally_cleanup _ parser _ _ _ Hbody) as [d' Hfin].
  exists d'. refine (eq_trans Hfin _). simpl. by rewrite <- (assoc_L (++)%list).
Qed.

(** ** Process, stop and uninstall *)

(** X8. With the [pidof] command answered, [pid] is [None] exactly when the
    command printed nothing; otherwise it is the first line of the output
    with no white space left around it. *)
Theorem pid_outcome (o : obj D) (out : string) (d : D) :
  execute_remote_cmd ["shell"; "pidof"; "-s"; _package_name (self o)] (dev (env o))
  = (Ok out, d) →
  ∃ p, pid o
       = (Ok p,
          Obj (self o)
            (World d (trace (env o)
                        ++ [Exec ["shell"; "pidof"; "-s"; _package_name (self o)]])))
       ∧ (p = None ↔ out = "")
       ∧ (∀ x, p = Some x → x = PyStr.strip (PyStr.first_line out) ∧ PyStr.strip x = x).
Proof.
  intros Hexec. eexists. split; [|split].
  - unfold pid. rewrite bind_this. unfold_device. simpl. by rewrite Hexec.
  - by destruct out.
  - intros x. destruct out as [|c t]; [done|]. intros [= <-].
    split; [done|]. apply PyStrFacts.strip_idemp.
Qed.

Lemma stop_returns (force : bool) (o : obj D) :
  ∃ w, stop force o = (Ok tt, Obj (self o) w).
Proof.
  unfold stop. rewrite bind_this. destruct force; unfold_device; simpl.
  - destruct (go_home (dev (env o))) as [[[]|e] d]; simpl; [|by eexists].
    destruct (execute_remote_cmd _ d) as [[out|e] d']; by eexists.
  - destruct (execute_remote_cmd _ (dev (env o))) as [[out|e] d']; by eexists.
Qed.

(** X9. [stop] never raises and leaves the application object as it is,
    whatever the device does; a forced stop sends the force-stop command only
    if going home went through. *)
Theorem stop_never_raises (force : bool) (o : obj D) :
  (∃ w, stop force o = (Ok tt, Obj (self o) w))
  ∧ (∀ e d, go_home (dev (env o)) = (Raise e, d) →
            stop true o = (Ok tt, Obj (self o) (World d (trace (env o))))).
Proof.
  split; [apply stop_returns|].
  intros e d Hhome. unfold stop. rewrite bind_this. unfold_device. simpl.
  by rewrite Hhome.
Qed.

(** X10. [uninstall] stops the application and sends the uninstall command;
    it returns when that command returns or times out, and when it fails
    otherwise and the installed packages can still be listed. It raises only
    what listing the packages raises after a failed uninstall command. *)
Theorem uninstall_outcome (o o1 : obj D) (r : result string) (d : D) :
  stop true o = (Ok tt, o1) →
  execute_remote_cmd ["uninstall"; _package_name (self o1)] (dev (env o1)) = (r, d) →
  match r with
  | Ok _ | Raise TimeoutExpired => (uninstall o).1 = Ok tt
  | Raise _ => (uninstall o).1 = match (list_installed_packages d).1 with
                                 | Ok _ => Ok tt
                                 | Raise e => Raise e
                                 end
  end.
Proof.
  intros Hstop Hexec. unfold uninstall. erewrite bind_ok by exact Hstop.
  rewrite bind_this. unfold_device. simpl. rewrite Hexec.
  destruct r as [out|e]; [done|].
  destruct e; simpl; try done;
    by destruct (list_installed_packages d) as [[l|e'] d'].
Qed.

(** ** The cached version *)

Lemma version_known (o : obj D) (v : string) :
  _version (self o) = Some v → version o = (Ok (Some v), o).
Proof.
  intros Hv. unfold version. rewrite bind_this.
  rewrite bool_decide_eq_false_2 by (by rewrite Hv).
  unfold_device. simpl. by rewrite Hv.
Qed.

Lemma version_stored (o o1 : obj D) (v : option string) :
  version o = (Ok v, o1) → _version (self o1) = v.
Proof.
  unfold version. rewrite bind_this. case_bool_decide as Hnone.
  - unfold_device. simpl.
    destruct (get_version _ _) as [[v0|e] d]; simpl; [|done].
    by intros [= <- <-].
  - unfold_device. simpl. by intros [= <- <-].
Qed.

(** X11. Once [version] has returned a version it is cached: the next call
    returns the same one and leaves the device and the trace alone. *)
Theorem version_cached (o o1 : obj D) (v : string) :
  version o = (Ok (Some v), o1) → version o1 = (Ok (Some v), o1).
Proof. intros Hrun. by apply version_known, (version_stored o). Qed.

(** ** Polling the home screen *)


(** ** Permissions over several calls *)

(** X13. [grant_permissions] and [regrant_permissions] only add: what was
    granted stays granted, and the package name, the declared permissions
    and the cached version are not touched. *)
Theorem grant_permissions_only_adds (permissions : option (list string)) (o : obj D) :
  let a := self (grant_permissions permissions o).2 in
  let a' := self (regrant_permissions o).2 in
  (_granted_permissions (self o) ⊆ _granted_permissions a
   ∧ _package_name a = _package_name (self o)
   ∧ _permissions a = _permissions (self o)
   ∧ _version a = _version (self o))
  ∧ (_granted_permissions (self o) ⊆ _granted_permissions a'
     ∧ _package_name a' = _package_name (self o)
     ∧ _permissions a' = _permissions (self o)
     ∧ _version a' = _version (self o)).
Proof.
  simpl. rewrite self_after_grant, self_after_regrant. simpl.
  repeat split; apply union_subseteq_r.
Qed.

(** X14. [grant_permissions] is idempotent: a second call with the same
    argument leaves the application as the first call left it. *)
Theorem grant_permissions_idempotent (permissions : option (list string)) (o : obj D) :
  self (grant_permissions permissions (grant_permissions permissions o).2).2
  = self (grant_permissions permissions o).2.
Proof.
  rewrite (self_after_grant permissions (grant_permissions permissions o).2).
  rewrite self_after_grant. unfold newly_granted, set_granted. simpl. f_equal.
  by rewrite (assoc_L (∪)), (idemp_L (∪)).
Qed.

(** X15. [regrant_permissions] on a granted set that is not empty, as the
    methods build it (no white space around its elements), returns normally
    and leaves the application as it is: the set is neither grown nor
    shrunk. *)
Theorem regrant_permissions_keeps (o : obj D) :
  _granted_permissions (self o) ≠ ∅ →
  set_Forall (λ q, PyStr.strip q = q) (_granted_permissions (self o)) →
  ∃ r w, regrant_permissions o = (Ok r, Obj (self o) w).
Proof.
  intros Hne Hstripped.
  assert (newly_granted (Some (elements (_granted_permissions (self o)))) (self o)
          ⊆ _granted_permissions (self o)) as Hsub.
  { intros q Hq. apply elem_of_permissions_filtered in Hq as (p & Hp & _ & ->).
    assert (p ∈ _granted_permissions (self o)) as Hin.
    { apply elem_of_elements. revert Hp. unfold or_default.
      destruct (elements (_granted_permissions (self o))) as [|x l] eqn:Hel; [|done].
      by apply elements_empty_inv, leibniz_equiv in Hel. }
    by rewrite (Hstripped p Hin). }
  unfold regrant_permissions. rewrite bind_this.
  destruct (decide (newly_granted (Some (elements (_granted_permissions (self o))))
                      (self o) = ∅)) as [Hempty|Hsome].
  - rewrite grant_permissions_nothing by done. destruct o as [a w]. by eexists _, _.
  - destruct (grant_permissions_loop _ o Hsome) as [d Hloop].
    simpl in Hloop. rewrite Hloop.
    rewrite (subseteq_union_1_L _ _ Hsub), set_granted_same. by eexists _, _.
Qed.

(** X16. When the clear command fails, [clear_data] raises that failure and
    nothing else has happened: the granted set is what it was, with either
    value of the flag, and no grant command has been sent. *)
Theorem clear_data_failure (regrant : bool) (o : obj D) (e : exn) (d : D) :
  execute_remote_cmd (clear_cmd (_package_name (self o))) (dev (env o)) = (Raise e, d) →
  clear_data regrant o
  = (Raise e,
     Obj (self o) (World d (trace (env o) ++ [Exec (clear_cmd (_package_name (self o)))]))).
Proof.
  intros Hclear. unfold clear_data. rewrite bind_this.
  erewrite bind_raise; [done|]. unfold_device. simpl. by rewrite Hclear.
Qed.

(** ** Foreground check *)

(** X17. On a stack with an entry that is not a silent package,
    [in_foreground] answers, without a command and without touching the
    application: ignoring silent packages it compares the first entry that is
    not silent with the package name, otherwise the top entry, silent or not;
    both without regard to letter case. *)
Theorem in_foreground_answers (o : obj D) (silent below : list string) (entry : string)
    (d : D) :
  get_activity_stack (dev (env o)) = (Ok (Some (silent ++ entry :: below)%list), d) →
  Forall (λ e, is_silent e = true) silent →
  is_silent entry = false →
  in_foreground true o
  = (Ok (bool_decide (PyStr.lower entry = PyStr.lower (_package_name (self o)))),
     Obj (self o) (World d (trace (env o))))
  ∧ in_foreground false o
    = (Ok (bool_decide (PyStr.lower (hd entry silent)
                        = PyStr.lower (_package_name (self o)))),
       Obj (self o) (World d (trace (env o)))).
Proof.
  intros Hstack Hsilent Hentry. split; [by eapply in_foreground_first_entry|].
  unfold in_foreground. unfold_device. rewrite Hstack. simpl.
  by destruct silent.
Qed.

(** ** Launch *)

(** X18. [launch] returns once the package is displayed: when the log stream
    is open and the start command has gone through, a line read after it
    that names [Displayed] and the package ends the scan with success,
    provided no line before it is a fatal-exception line or displays the
    package, the timeout does not run out before it, and the line is not
    itself the crash report. *)
Theorem launch_displayed (o o1 o2 : obj D) (activity : string) (options : list string)
    (intent : option string) (timeout : option Z) (stream ahead behind : list tick)
    (line : string) :
  open_logcat o = (Ok tt, o1) →
  subscribe timeout 0 stream = Ok (ahead ++ Line line :: behind)%list →
  start activity options intent o1 = (Ok tt, o2) →
  (timeout = None ∨ Expire ∉ ahead) →
  Forall (λ t, on_line fatal t = false
               ∧ on_line (displays (_package_name (self o))) t = false) ahead →
  displays (_package_name (self o)) line = true →
  fatal line && PyStr.contains "Process" line = false →
  launch activity options intent timeout stream o = (Ok tt, o2).
Proof.
  intros Hopen Hsub Hstart Hexp Hahead Hdisplays Hcrash. unfold launch.
  rewrite bind_this. erewrite bind_ok by exact Hopen.
  rewrite bind_lift, Hsub. erewrite bind_ok by exact Hstart.
  unfold lift_result. f_equal. by apply scan_displayed.
Qed.

(** X19. Without a fatal-exception line there is no crash failure: when the
    log stream is open and the start command has gone through, and no line
    read afterwards is a fatal-exception line, [launch] returns or, with a
    timeout, raises the timeout failure, whatever the lines say of
    [Process]. Without a timeout it returns. *)
Theorem launch_without_fatal_line (o o1 o2 : obj D) (activity : string)
    (options : list string) (intent : option string) (timeout : option Z)
    (stream rest : list tick) :
  open_logcat o = (Ok tt, o1) →
  subscribe timeout 0 stream = Ok rest →
  start activity options intent o1 = (Ok tt, o2) →
  Forall (λ t, on_line fatal t = false) rest →
  launch activity options intent timeout stream o = (Ok tt, o2)
  ∨ (is_Some timeout
     ∧ launch activity options intent timeout stream o = (Raise AsyncTimeoutError, o2)).
Proof.
  intros Hopen Hsub Hstart Hrest. unfold launch.
  rewrite bind_this. erewrite bind_ok by exact Hopen.
  rewrite bind_lift, Hsub. erewrite bind_ok by exact Hstart.
  unfold lift_result.
  destruct (scan_without_fatal timeout (_package_name (self o)) rest Hrest)
    as [->|[Hsome ->]]; [by left|by right].
Qed.


(** ** Test runs *)


(** X23. [run_orchestrated] with both package queries answered returns a
    command exactly when the first list holds both support packages and at
    least one package besides them (the test is for a proper subset) and the
    second list holds the target package. *)
Theorem run_orchestrated_outcome (t : TestApplication) (options : list string)
    (w : world D) (packages packages' : list string) (d d' : D) :
  list_installed_packages (dev w) = (Ok packages, d) →
  list_installed_packages d = (Ok packages', d') →
  (∃ cmd w', run_orchestrated t options w = (Ok cmd, w'))
  ↔ support_packages_present packages
    ∧ Exists (λ p, p ≠ "android.support.test.services"
                   ∧ p ≠ "android.support.test.orchestrator") packages
    ∧ _package_name (_target_application t) ∈ packages'.
Proof.
  intros Hlist Hlist'. unfold run_orchestrated.
  erewrite bind_ok by (by apply call_eq).
  assert (({["android.support.test.services"; "android.support.test.orchestrator"]}
             ⊂ (list_to_set packages : gset string))
          ↔ support_packages_present packages
            ∧ Exists (λ p, p ≠ "android.support.test.services"
                           ∧ p ≠ "android.support.test.orchestrator") packages)
    as Hstrict.
  { unfold support_packages_present. split.
    - intros [Hsub Hnsub]. split.
      + split; apply (elem_of_list_to_set (C := gset string)), Hsub;
          [apply elem_of_union_l|apply elem_of_union_r]; by apply elem_of_singleton.
      + apply Exists_exists.
        destruct (decide (Forall (λ p, p = "android.support.test.services"
                                       ∨ p = "android.support.test.orchestrator") packages))
          as [Hall|Hsome].
        * exfalso. apply Hnsub. intros p Hp%elem_of_list_to_set.
          rewrite Forall_forall in Hall.
          destruct (Hall p Hp) as [->| ->];
            [apply elem_of_union_l|apply elem_of_union_r]; by apply elem_of_singleton.
        * apply not_Forall_Exists in Hsome; [|apply _].
          apply Exists_exists in Hsome as (p & Hp & Hnot). exists p. split; [done|].
          simpl in Hnot. split; intros ->; apply Hnot; [by left|by right].
    - intros [[Hs Ho] Hother]. split.
      + intros p [Hp|Hp]%elem_of_union; apply elem_of_singleton in Hp as ->;
          by apply elem_of_list_to_set.
      + intros Hsub. apply Exists_exists in Hother as (p & Hp & Hns & Hno).
        assert (p ∈ ({["android.support.test.services";
                       "android.support.test.orchestrator"]} : gset string)) as Hin.
        { apply Hsub. by apply elem_of_list_to_set. }
        apply elem_of_union in Hin as [Hin|Hin]; by apply elem_of_singleton in Hin. }
  case_bool_decide as Hsupport.
  - split; [by intros (cmd & w' & [=])|].
    intros (Hs & Hother & _). exfalso. apply Hsupport, Hstrict. by split.
  - try apply dec_stable in Hsupport. apply Hstrict in Hsupport as [Hs Hother].
    erewrite bind_ok by (by apply call_eq).
    case_bool_decide as Htarget.
    + split; [by intros (cmd & w' & [=])|]. by intros (_ & _ & Hin).
    + try apply dec_stable in Htarget. split; [done|]. intros _. by eexists _, _.
Qed.

(** ** Services *)

(** X24. A service is started or sent a broadcast only with an activity: with
    an empty one [ServiceApplication.start] and [broadcast] raise and nothing
    is sent. With an activity, [start] sends one command, for a foreground
    service exactly when one is asked for and the API level is 26 or more,
    with every option in quotes. *)
Theorem service_commands (api_level : Z) (activity : string) (options : list string)
    (intent : option string) (foreground : bool) (o : obj D) :
  (activity = "" →
   (ServiceApplication_start api_level activity options intent foreground o).1
   = Raise (PyException "Must provide an activity for ServiceApplication")
   ∧ (broadcast activity options intent o).1
     = Raise (PyException "Must provide an activity for ServiceApplication")
   ∧ (ServiceApplication_start api_level activity options intent foreground o).2 = o
   ∧ (broadcast activity options intent o).2 = o)
  ∧ (activity ≠ "" →
     let verb := if foreground && bool_decide (26 ≤ api_level)%Z
                 then "start-foreground-service" else "startservice" in
     trace (env (ServiceApplication_start api_level activity options intent foreground o).2)
     = (trace (env o)
          ++ [Exec (["shell"; "am"; verb; "-n"; _package_name (self o) +:+ "/" +:+ activity]
                      ++ with_intent intent (quote_item <$> options))])%list).
Proof.
  split.
  - intros ->. by unfold ServiceApplication_start, broadcast.
  - intros Hact. unfold ServiceApplication_start. rewrite bind_this.
    rewrite bool_decide_eq_false_2 by done.
    destruct (foreground && bool_decide (26 ≤ api_level)%Z); unfold_device; simpl;
      by destruct (execute_remote_cmd _ _) as [[out|e] d].
Qed.


End MoreFacts.

(** X3 on a device that lists the package at the second query only. *)
Lemma verify_install_contract_witness :
  let d := {| Sim.installed := [[]; ["com.example.app"]]; Sim.home := []; Sim.failing := [];
              Sim.pidof := ""; Sim.stack := None; Sim.returncode := 0 |} in
  verify_install (boundary := Sim.boundary Sim.dangerous) "com.example.app" (Sim.fresh d)
  = (Ok tt, World (with_packages ["com.example.app"]) [Sleep 1]).
Proof.
  simpl.
  edestruct (verify_install_contract (boundary := Sim.boundary Sim.dangerous)
               "com.example.app"
               (Sim.fresh {| Sim.installed := [[]; ["com.example.app"]]; Sim.home := [];
                             Sim.failing := []; Sim.pidof := ""; Sim.stack := None;
                             Sim.returncode := 0 |})
               [] ["com.example.app"]) as (_ & Hlate & _).
  - reflexivity.
  - reflexivity.
  - apply Hlate.
    + by intros Hin%elem_of_nil.
    + by apply list_elem_of_singleton.
Defined.

(** X4 on an apk without instrumentation element. *)
Lemma test_from_apk_installs_before_validating_witness :
  TestApplication_from_apk (boundary := Sim.boundary Sim.dangerous)
    (λ _, Ok {| AXML.package_name := "com.example.app"; AXML.permissions := [];
                AXML.instrumentation := None |})
    "app.apk" false (Sim.fresh Sim.idle)
  = (Raise invalid_test_manifest, World Sim.idle [Exec ["install"; "-t"; "app.apk"]]).
Proof.
  eapply (test_from_apk_installs_before_validating (boundary := Sim.boundary Sim.dangerous)
            _ "app.apk" false (Sim.fresh Sim.idle)).
  - reflexivity.
  - reflexivity.
  - reflexivity.
Defined.

(** ** Instances on the scripted device *)

(** X6 on a device that refuses the push. *)
Lemma monitor_install_push_fails_witness :
  ∃ d, _monitor_install (boundary := Sim.boundary Sim.dangerous) (λ _, Ok sample_manifest)
         "app.apk" ["-r"] None
         (Sim.fresh (Sim.refusing [push_cmd "app.apk" sample_manifest]))
       = (Raise (IOError "Unable to push apk to device failed"),
          World d [Exec (push_cmd "app.apk" sample_manifest); Exec (rm_cmd sample_manifest)]).
Proof.
  eapply (monitor_install_push_fails (boundary := Sim.boundary Sim.dangerous)
            (λ _, Ok sample_manifest) "app.apk" ["-r"] None
            (Sim.fresh (Sim.refusing [push_cmd "app.apk" sample_manifest]))
            sample_manifest (CommandExecutionFailure "failed")).
  - reflexivity.
  - reflexivity.
Defined.

(** X7 on a device whose install process exits with 1. *)
Lemma monitor_install_return_code_witness :
  ∃ d, _monitor_install (boundary := versioned None) (λ _, Ok sample_manifest)
         "app.apk" [] None (Sim.fresh (exiting 1))
       = (Raise (CommandExecutionFailure
                   "Install of app.apk failed: Failure [INSTALL_FAILED]"),
          World d [Exec (push_cmd "app.apk" sample_manifest);
                   Monitor (pm_install_cmd [] sample_manifest);
                   Exec (rm_cmd sample_manifest)]).
Proof.
  eapply (monitor_install_return_code (boundary := versioned None)
            (λ _, Ok sample_manifest) "app.apk" [] (Sim.fresh (exiting 1))
            sample_manifest "" "Failure [INSTALL_FAILED]" 1).
  - reflexivity.
  - reflexivity.
  - reflexivity.
  - reflexivity.
  - reflexivity.
Defined.

(** X8 on a device whose [pidof] prints a process id and a blank. *)
Lemma pid_outcome_witness :
  let d := {| Sim.installed := []; Sim.home := []; Sim.failing := []; Sim.pidof := "4242 ";
              Sim.stack := None; Sim.returncode := 0 |} in
  ∃ p, pid (boundary := Sim.boundary Sim.dangerous)
         (Obj (Sim.app "com.example.app" []) (Sim.fresh d))
       = (Ok p, Obj (Sim.app "com.example.app" [])
                  (World d [Exec ["shell"; "pidof"; "-s"; "com.example.app"]]))
       ∧ (p = None ↔ "4242 " = "")
       ∧ (∀ x, p = Some x → x = "4242" ∧ PyStr.strip x = x).
Proof.
  simpl.
  apply (pid_outcome (boundary := Sim.boundary Sim.dangerous)
           (Obj (Sim.app "com.example.app" [])
              (Sim.fresh {| Sim.installed := []; Sim.home := []; Sim.failing := [];
                            Sim.pidof := "4242 "; Sim.stack := None;
                            Sim.returncode := 0 |}))
           "4242 ").
  reflexivity.
Defined.

(** X10 on a device that refuses the uninstall command. *)
Lemma uninstall_outcome_witness :
  (uninstall (boundary := Sim.boundary Sim.dangerous)
     (Obj (Sim.app "com.example.app" [])
        (Sim.fresh (Sim.refusing [["uninstall"; "com.example.app"]])))).1
  = Ok tt.
Proof.
  pose proof (uninstall_outcome (boundary := Sim.boundary Sim.dangerous)
                (Obj (Sim.app "com.example.app" [])
                   (Sim.fresh (Sim.refusing [["uninstall"; "com.example.app"]])))
                _ (Raise (CommandExecutionFailure "failed")) _ eq_refl eq_refl) as Hout.
  exact Hout.
Defined.

(** X11 on a device that knows the version. *)
Lemma version_cached_witness :
  let o1 := Obj (set_version (Some "1.2.3") (Sim.app "com.example.app" []))
              (Sim.fresh Sim.idle) in
  version (boundary := versioned (Some "1.2.3")) o1 = (Ok (Some "1.2.3"), o1).
Proof.
  simpl.
  apply (version_cached (boundary := versioned (Some "1.2.3"))
           (Obj (Sim.app "com.example.app" []) (Sim.fresh Sim.idle))).
  reflexivity.
Defined.

(** X15 with the camera permission granted. *)
Lemma regrant_permissions_keeps_witness :
  let a := MkApplication "com.example.app" ∅ {["android.permission.CAMERA"]} None in
  ∃ r w, regrant_permissions (boundary := Sim.boundary Sim.dangerous)
           (Obj a (Sim.fresh Sim.idle))
         = (Ok r, Obj a w).
Proof.
  simpl.
  apply (regrant_permissions_keeps (boundary := Sim.boundary Sim.dangerous)
           (Obj (MkApplication "com.example.app" ∅ {["android.permission.CAMERA"]} None)
              (Sim.fresh Sim.idle))).
  - simpl. apply non_empty_singleton_L.
  - intros q Hq. simpl in Hq. apply elem_of_singleton in Hq. by subst q.
Defined.

(** X16 on a device that refuses the clear command. *)
Lemma clear_data_failure_witness :
  let a := MkApplication "com.example.app" ∅ {["android.permission.CAMERA"]} None in
  let d := Sim.refusing [clear_cmd "com.example.app"] in
  clear_data (boundary := Sim.boundary Sim.dangerous) false (Obj a (Sim.fresh d))
  = (Raise (CommandExecutionFailure "failed"),
     Obj a (World d [Exec (clear_cmd "com.example.app")])).
Proof.
  simpl.
  apply (clear_data_failure (boundary := Sim.boundary Sim.dangerous) false
           (Obj (MkApplication "com.example.app" ∅ {["android.permission.CAMERA"]} None)
              (Sim.fresh (Sim.refusing [clear_cmd "com.example.app"])))).
  reflexivity.
Defined.

(** X17 with a silent package on top of the application. *)
Lemma in_foreground_answers_witness :
  let o := Obj (Sim.app "com.example.app" [])
             (Sim.fresh (Sim.showing (Some ["com.wssyncmldm"; "Com.Example.App";
                                            "launcher"]))) in
  (in_foreground (boundary := Sim.boundary Sim.dangerous) true o).1 = Ok true
  ∧ (in_foreground (boundary := Sim.boundary Sim.dangerous) false o).1 = Ok false.
Proof.
  simpl.
  edestruct (in_foreground_answers (boundary := Sim.boundary Sim.dangerous)
               (Obj (Sim.app "com.example.app" [])
                  (Sim.fresh (Sim.showing (Some ["com.wssyncmldm"; "Com.Example.App";
                                                 "launcher"]))))
               ["com.wssyncmldm"] ["launcher"] "Com.Example.App") as [Hskip Htop].
  - reflexivity.
  - by repeat constructor.
  - reflexivity.
  - split; [exact (f_equal fst Hskip)|exact (f_equal fst Htop)].
Defined.

(** X18 on a stream that shows the application. *)
Lemma launch_displayed_witness :
  ∃ o2,
    launch (boundary := Sim.boundary Sim.dangerous) "MainActivity" [] None (Some 30%Z)
      (Line <$> [Sim.banner_main; Sim.banner_system; Sim.start_line; Sim.displayed_line;
                 Sim.fatal_line])
      (Obj (Sim.app "com.example.app" []) (Sim.fresh Sim.idle))
    = (Ok tt, o2).
Proof.
  eexists.
  eapply (launch_displayed (boundary := Sim.boundary Sim.dangerous) _ _ _ _ _ _ _ _
            [Line Sim.start_line] [Line Sim.fatal_line] Sim.displayed_line).
  - by vm_compute.
  - by vm_compute.
  - by vm_compute.
  - right. intros Hin. apply elem_of_cons in Hin as [Hin|Hin]; [done|].
    by apply elem_of_nil in Hin.
  - by repeat constructor.
  - by vm_compute.
  - by vm_compute.
Defined.

(** X19 on a stream that names the process and no fatal exception. *)
Lemma launch_without_fatal_line_witness :
  ∃ o2,
    launch (boundary := Sim.boundary Sim.dangerous) "MainActivity" [] None None
      (Line <$> [Sim.banner_main; Sim.banner_system; Sim.process_line])
      (Obj (Sim.app "com.example.app" []) (Sim.fresh Sim.idle))
    = (Ok tt, o2).
Proof.
  eexists.
  edestruct (launch_without_fatal_line (boundary := Sim.boundary Sim.dangerous)
               (Obj (Sim.app "com.example.app" []) (Sim.fresh Sim.idle))
               (Obj (Sim.app "com.example.app" []) (World Sim.idle [Monitor logcat_cmd]))
               (Obj (Sim.app "com.example.app" [])
                  (World Sim.idle
                     [Monitor logcat_cmd;
                      Exec ["shell"; "am"; "start"; "-n";
                            "com.example.app/com.example.app.MainActivity"]]))
               "MainActivity" [] None None
               (Line <$> [Sim.banner_main; Sim.banner_system; Sim.process_line])
               [Line Sim.process_line]) as [Hok|[Hsome _]].
  - by vm_compute.
  - by vm_compute.
  - by vm_compute.
  - by repeat constructor.
  - exact Hok.
  - by destruct Hsome.
Defined.



(** X23 on a device with the support packages and the application. *)
Lemma run_orchestrated_outcome_witness :
  ∃ cmd w,
    run_orchestrated (boundary := Sim.boundary Sim.dangerous) sample_test_app ["-e"; "x"]
      (Sim.fresh (with_packages ["android.support.test.services";
                                 "android.support.test.orchestrator"; "com.example.app"]))
    = (Ok cmd, w).
Proof.
  eapply (run_orchestrated_outcome (boundary := Sim.boundary Sim.dangerous)).
  - reflexivity.
  - reflexivity.
  - split; [|split].
    + split; [by left|by right; left].
    + apply Exists_cons_tl, Exists_cons_tl, Exists_cons_hd. by split.
    + simpl. by right; right; left.
Defined.


(** ** More on the watchdog timer *)

Module TimingMore.
Import Timing.

(** X26. A timer that has been started can be ended once: [mark_end] after
    [mark_start] returns, sets the future of the timer to done, asks for the
    cancellation of its task, and leaves every other future and task of the
    loop, and the timer itself, as they were. A second [mark_end] right after
    it finds the future done and raises, changing nothing. *)
Theorem timer_ends_once (duration : Q) (l : event_loop) (name name' name'' : string) :
  let started := (mark_start name (Timer_init duration l)).2 in
  let ended := (mark_end name' started).2 in
  (mark_end name' started).1 = Ok tt
  ∧ timer ended = timer started
  ∧ futures (loop ended) = (futures l ++ [Finished true])%list
  ∧ tasks (loop ended) = (tasks l ++ [CancelRequested name])%list
  ∧ stopped (loop ended) = stopped l
  ∧ mark_end name'' ended = (Raise InvalidStateError, ended).
Proof.
  simpl. unfold mark_end, mark_start, Timer_init. simpl.
  rewrite lookup_app_r, Nat.sub_diag by done. simpl.
  rewrite list_lookup_insert_eq by (rewrite length_app; simpl; lia).
  repeat split.
  - rewrite insert_app_r_alt, Nat.sub_diag by done. done.
  - rewrite alter_app_r_alt by done. by rewrite Nat.sub_diag.
Qed.

(** X27. A timer whose coroutine has run to its end is used up: the future
    is forgotten, so [mark_end] raises the internal error and changes
    nothing, whether the wait ran out or not; when it ran out, the future has
    been cancelled and the whole loop stopped. *)
Theorem timer_used_up (duration : Q) (l : event_loop) (name name' : string)
    (timed_out : bool) :
  let started := (mark_start name (Timer_init duration l)).2 in
  let over := timer_returns timed_out started in
  mark_end name' over
  = (Raise (PyException "Internal error: marking end without a start?!"), over)
  ∧ (timed_out = true →
     stopped (loop over) = true
     ∧ futures (loop over) = (futures l ++ [Cancelled])%list)
  ∧ (timed_out = false → loop over = loop started).
Proof.
  simpl. split; [done|]. split.
  - intros ->. simpl. split; [done|].
    by rewrite insert_app_r_alt, Nat.sub_diag by done.
  - by intros ->.
Qed.

End TimingMore.
